(** * blender2xplane: the animation compatibility shims

    A shallow embedding of [xplane_utils/xplane_anim_compat.py] and of its
    sibling [xplane_utils/xplane_anim_compat_bak.py].

    Both modules are glue over Blender's object graph.  The object graph is
    not part of the repository, so it is a parameter here: a [Host] record
    that answers attribute reads, truth tests, iteration, indexing, imports
    of [bpy_extras.anim_utils] and method calls.  The Python functions are
    written in a small monad that threads the host's world, propagates
    exceptions and records every interaction (and every [yield]) in a
    trace.

    Conventions of the model.  A value is [None] or a host object.
    Attribute reads, indexing, imports and calls may raise; a truth test
    answers.  Reads do not change the world, calls may.  A generator is
    run to exhaustion, its yields being the [EvYield] events of the
    trace; a [for] loop takes the items of its collection when it
    starts.  Only subclasses of [Exception] are modelled. *)

From Stdlib Require Import List String Bool Arith Lia.
Import ListNotations.
Open Scope string_scope.
Open Scope list_scope.

(** ** Python values and exceptions *)

(** Host objects (AnimData, Action, slots, collections, channel bags,
    curves, groups) are opaque handles. *)
Definition obj := nat.

(** What flows through the shims: [None] or a host object. *)
Inductive value : Type :=
| VNone
| VObj (o : obj).

(** The subclasses of [Exception] that matter to the code: [TypeError] is
    singled out by [remove_fcurve_from_collection], [AttributeError] by
    [hasattr] and the three-argument [getattr]. *)
Inductive exn : Type :=
| AttributeError
| TypeError
| ImportError
| IndexError
| ReferenceError
| RuntimeError.

Inductive res (A : Type) : Type :=
| Ok (a : A)
| Raise (e : exn).
Arguments Ok {A} a.
Arguments Raise {A} e.

(** Arguments of host calls and the two calling conventions. *)
Inductive arg : Type :=
| AVal (v : value)
| AStr (s : string).

Inductive conv : Type :=
| Positional
| Keyword (k : string).

(** Everything a call does to its environment, in program order. *)
Inductive event : Type :=
| EvTruth (o : obj)
| EvGetattr (o : obj) (name : string)
| EvIter (o : obj)
| EvItem (o : obj) (i : nat)
| EvImport (name : string)
| EvHelper (name : string) (action slot : value) (ensure : option bool)
| EvMethod (o : obj) (meth : string) (c : conv) (a : arg)
| EvYield (v : value).

Definition is_none (v : value) : bool :=
  match v with VNone => true | VObj _ => false end.

Definition value_eqb (a b : value) : bool :=
  match a, b with
  | VNone, VNone => true
  | VObj x, VObj y => Nat.eqb x y
  | _, _ => false
  end.

Definition is_AttributeError (e : exn) : bool :=
  match e with AttributeError => true | _ => false end.

(** ** The host *)

(** [W] is the host's world (its scene data).  Reads are functions of the
    world; calls may change it.  [h_iter] gives the items an iteration
    produces and, when the iteration breaks off, the exception that ends
    it.  [h_anim_utils] says whether [bpy_extras.anim_utils] can be
    imported; the two helpers are [None] when that module lacks them. *)
Record Host (W : Type) : Type := {
  h_truth : W -> obj -> bool;
  h_attr : W -> obj -> string -> res value;
  h_iter : W -> obj -> list value * option exn;
  h_item : W -> obj -> nat -> res value;
  h_anim_utils : bool;
  h_get_channelbag : option (W -> value -> value -> res value * W);
  h_ensure_channelbag : option (W -> value -> value -> bool -> res value * W);
  h_method : W -> obj -> string -> conv -> arg -> res value * W
}.
Arguments h_truth {W} _ _ _.
Arguments h_attr {W} _ _ _ _.
Arguments h_iter {W} _ _ _.
Arguments h_item {W} _ _ _ _.
Arguments h_anim_utils {W} _.
Arguments h_get_channelbag {W} _.
Arguments h_ensure_channelbag {W} _.
Arguments h_method {W} _ _ _ _ _ _.

(** ** The monad: world passing, exceptions, trace *)

Definition M (W A : Type) : Type := W -> res A * W * list event.

Definition ret {W A} (a : A) : M W A := fun w => (Ok a, w, []).

Definition raise {W A} (e : exn) : M W A := fun w => (Raise e, w, []).

Definition bind {W A B} (m : M W A) (f : A -> M W B) : M W B :=
  fun w =>
    match m w with
    | (Ok a, w1, t1) =>
        match f a w1 with
        | (r, w2, t2) => (r, w2, t1 ++ t2)
        end
    | (Raise e, w1, t1) => (Raise e, w1, t1)
    end.

(** [try: m  except Exception as e: handler e]. *)
Definition try_except {W A} (m : M W A) (handler : exn -> M W A) : M W A :=
  fun w =>
    match m w with
    | (Ok a, w1, t1) => (Ok a, w1, t1)
    | (Raise e, w1, t1) =>
        match handler e w1 with
        | (r, w2, t2) => (r, w2, t1 ++ t2)
        end
    end.

Definition emit {W} (ev : event) : M W unit := fun w => (Ok tt, w, [ev]).

Declare Scope py_scope.
Delimit Scope py_scope with py.
Notation "x <- m ;; k" := (bind m (fun x => k))
  (at level 61, m at next level, right associativity) : py_scope.
Notation "m ;; k" := (bind m (fun _ => k))
  (at level 61, right associativity) : py_scope.
Open Scope py_scope.

(** Projections of a run. *)
Definition result {W A} (r : res A * W * list event) : res A := fst (fst r).
Definition world {W A} (r : res A * W * list event) : W := snd (fst r).
Definition trace {W A} (r : res A * W * list event) : list event := snd r.

(** What a generator handed to its consumer. *)
Fixpoint yields (t : list event) : list value :=
  match t with
  | [] => []
  | EvYield v :: t' => v :: yields t'
  | _ :: t' => yields t'
  end.

(** Method calls made on host objects, by method name. *)
Fixpoint method_calls (meth : string) (t : list event) : nat :=
  match t with
  | [] => 0
  | EvMethod _ m _ _ :: t' =>
      (if String.eqb m meth then 1 else 0) + method_calls meth t'
  | _ :: t' => method_calls meth t'
  end.

(** Calls of the two [anim_utils] helpers. *)
Fixpoint helper_calls (t : list event) : nat :=
  match t with
  | [] => 0
  | EvHelper _ _ _ _ :: t' => S (helper_calls t')
  | _ :: t' => helper_calls t'
  end.

(** ** Python primitives over a host *)

Section Primitives.
Context {W : Type} (h : Host W).

(** [bool(v)]: [None] is falsy, a host object answers for itself. *)
Definition truthy (v : value) : M W bool :=
  match v with
  | VNone => ret false
  | VObj o => fun w => (Ok (h_truth h w o), w, [EvTruth o])
  end.

(** [v.name]. *)
Definition getattr (v : value) (name : string) : M W value :=
  match v with
  | VNone => raise AttributeError
  | VObj o => fun w => (h_attr h w o name, w, [EvGetattr o name])
  end.

(** [hasattr(v, name)]: only [AttributeError] means "no". *)
Definition hasattr (v : value) (name : string) : M W bool :=
  try_except (_ <- getattr v name ;; ret true)
    (fun e => if is_AttributeError e then ret false else raise e).

(** [getattr(v, name, default)]. *)
Definition getattr_default (v : value) (name : string) (d : value)
  : M W value :=
  try_except (getattr v name)
    (fun e => if is_AttributeError e then ret d else raise e).

(** [v[i]]. *)
Definition item (v : value) (i : nat) : M W value :=
  match v with
  | VNone => raise TypeError
  | VObj o => fun w => (h_item h w o i, w, [EvItem o i])
  end.

Fixpoint run_items (items : list value) (body : value -> M W unit)
  : M W unit :=
  match items with
  | [] => ret tt
  | x :: xs => body x ;; run_items xs body
  end.

Definition finish (fin : option exn) : M W unit :=
  match fin with
  | None => ret tt
  | Some e => raise e
  end.

(** [for x in v: body x]: the items first, then the exception that ends
    the iteration, if any; [None] is not iterable. *)
Definition for_in (v : value) (body : value -> M W unit) : M W unit :=
  match v with
  | VNone => raise TypeError
  | VObj o => fun w =>
      (emit (EvIter o) ;;
       run_items (fst (h_iter h w o)) body ;;
       finish (snd (h_iter h w o))) w
  end.

(** [list(v)]. *)
Definition to_list (v : value) : M W (list value) :=
  match v with
  | VNone => raise TypeError
  | VObj o => fun w =>
      (emit (EvIter o) ;;
       finish (snd (h_iter h w o)) ;;
       ret (fst (h_iter h w o))) w
  end.

(** [yield v]. *)
Definition yield (v : value) : M W unit := emit (EvYield v).

(** [from bpy_extras import anim_utils]. *)
Definition import_anim_utils : M W unit :=
  emit (EvImport "bpy_extras.anim_utils") ;;
  if h_anim_utils h then ret tt else raise ImportError.

(** [from bpy_extras.anim_utils import action_ensure_channelbag_for_slot]. *)
Definition import_ensure_helper
  : M W (W -> value -> value -> bool -> res value * W) :=
  emit (EvImport "bpy_extras.anim_utils.action_ensure_channelbag_for_slot") ;;
  if h_anim_utils h then
    match h_ensure_channelbag h with
    | Some f => ret f
    | None => raise ImportError
    end
  else raise ImportError.

(** [f(action, slot, ensure=ensure)] for the imported helper [f]. *)
Definition call_ensure (f : W -> value -> value -> bool -> res value * W)
    (action slot : value) (ensure : bool) : M W value :=
  fun w =>
    let '(r, w') := f w action slot ensure in
    (r, w', [EvHelper "action_ensure_channelbag_for_slot" action slot (Some ensure)]).

(** [anim_utils.action_get_channelbag_for_slot(action, slot)]. *)
Definition call_get_channelbag (action slot : value) : M W value :=
  match h_get_channelbag h with
  | None => raise AttributeError
  | Some f => fun w =>
      let '(r, w') := f w action slot in
      (r, w', [EvHelper "action_get_channelbag_for_slot" action slot None])
  end.

(** [v.meth(a)] or [v.meth(k=a)]. *)
Definition call_method (v : value) (meth : string) (c : conv) (a : arg)
  : M W value :=
  match v with
  | VNone => raise AttributeError
  | VObj o => fun w =>
      let '(r, w') := h_method h w o meth c a in
      (r, w', [EvMethod o meth c a])
  end.

(** [not anim_data or not anim_data.action]. *)
Definition no_action (anim_data : value) : M W bool :=
  b <- truthy anim_data ;;
  if negb b then ret true
  else
    a <- getattr anim_data "action" ;;
    b' <- truthy a ;;
    ret (negb b').

End Primitives.

(** The layered walk, the same text in both modules
    ([xplane_anim_compat.py] lines 83-101, [xplane_anim_compat_bak.py]
    lines 104-122): layers, strips, channel bags, curves, each level read
    with [getattr(_, name, None)] and skipped when falsy. *)
Section Layered.
Context {W : Type} (h : Host W).

Definition walk_channelbag (cb : value) : M W unit :=
  fcurves <- getattr_default h cb "fcurves" VNone ;;
  b <- truthy h fcurves ;;
  if negb b then ret tt
  else for_in h fcurves (fun fc => yield fc).

Definition walk_strip (strip : value) : M W unit :=
  channelbags <- getattr_default h strip "channelbags" VNone ;;
  b <- truthy h channelbags ;;
  if negb b then ret tt
  else for_in h channelbags walk_channelbag.

Definition walk_layer (layer : value) : M W unit :=
  strips <- getattr_default h layer "strips" VNone ;;
  b <- truthy h strips ;;
  if negb b then ret tt
  else for_in h strips walk_strip.

Definition walk_layers (action : value) : M W unit :=
  layers <- getattr_default h action "layers" VNone ;;
  b <- truthy h layers ;;
  if negb b then ret tt
  else for_in h layers walk_layer.

End Layered.

(** ** [xplane_utils/xplane_anim_compat.py] *)

Module Compat.
Section WithHost.
Context {W : Type} (h : Host W).

Definition get_action_channelbag (anim_data : value) (ensure : bool)
  : M W value :=
  g <- no_action h anim_data ;;
  if g then ret VNone
  else
    action <- getattr h anim_data "action" ;;
    (* Blender <= 4.5 *)
    legacy <- hasattr h action "groups" ;;
    if legacy then ret action
    else
      (* Blender 5.0+ *)
      try_except
        (f <- import_ensure_helper h ;;
         slot <- getattr h anim_data "action_slot" ;;
         call_ensure f action slot ensure)
        (fun _ => ret VNone).

Definition ensure_action_group (anim_data : value) (group_name : string)
  : M W value :=
  g <- no_action h anim_data ;;
  if g then ret VNone
  else
    container <- get_action_channelbag anim_data true ;;
    c <- truthy h container ;;
    if negb c then ret VNone
    else
      legacy <- hasattr h container "groups" ;;
      if legacy then
        groups <- getattr h container "groups" ;;
        found <- call_method h groups "get" Positional (AStr group_name) ;;
        t <- truthy h found ;;
        if t then ret found
        else
          groups' <- getattr h container "groups" ;;
          call_method h groups' "new" Positional (AStr group_name)
      else ret VNone.

(** Lines 73-81, [if hasattr(action, "fcurves"): try: ... return
    except Exception: pass].  The block answers whether the function
    returned from inside the [try]. *)
Definition legacy_block (action : value) : M W bool :=
  legacy <- hasattr h action "fcurves" ;;
  if legacy then
    try_except
      (fcurves <- getattr h action "fcurves" ;;
       for_in h fcurves (fun fc => yield fc) ;;
       ret true)
      (* fall through to layered API *)
      (fun _ => ret false)
  else ret false.

(** The generator, run to exhaustion: its yields are the [EvYield]
    events of the trace. *)
Definition iter_action_fcurves (action : value) : M W unit :=
  if is_none action then ret tt
  else
    (* Blender 2.x-4.x *)
    returned <- legacy_block action ;;
    if returned then ret tt
    else
      (* Blender 5.0+ slotted actions *)
      walk_layers h action.

Definition get_channelbag_for_anim_data (anim_data : value) : M W value :=
  if is_none anim_data then ret VNone
  else
    action <- getattr_default h anim_data "action" VNone ;;
    if is_none action then ret VNone
    else
      imported <- try_except (import_anim_utils h ;; ret true)
                    (fun _ => ret false) ;;
      if negb imported then ret VNone
      else
        slot <- getattr_default h anim_data "action_slot" VNone ;;
        if is_none slot then ret VNone
        else
          try_except (call_get_channelbag h action slot)
            (fun _ => ret VNone).

(** [slot is None and hasattr(action, "slots") and action.slots], then
    [slot = action.slots[0]]. *)
Definition slot_or_first (action slot : value) : M W value :=
  if is_none slot then
    has <- hasattr h action "slots" ;;
    if has then
      slots <- getattr h action "slots" ;;
      t <- truthy h slots ;;
      if t then
        slots' <- getattr h action "slots" ;;
        item h slots' 0
      else ret slot
    else ret slot
  else ret slot.

Definition get_fcurves_for_anim_data (anim_data : value)
  : M W (list value) :=
  g <- no_action h anim_data ;;
  if g then ret []
  else
    action <- getattr h anim_data "action" ;;
    returned <-
      try_except
        (import_anim_utils h ;;
         slot0 <- getattr_default h anim_data "action_slot" VNone ;;
         slot <- slot_or_first action slot0 ;;
         if is_none slot then ret None
         else
           cb <- call_get_channelbag h action slot ;;
           if is_none cb then ret None
           else
             fcurves <- getattr h cb "fcurves" ;;
             l <- to_list h fcurves ;;
             ret (Some l))
        (fun _ => ret None) ;;
    match returned with
    | Some l => ret l
    | None =>
        (* Legacy fallback *)
        legacy <- hasattr h action "fcurves" ;;
        if legacy then
          fcurves <- getattr h action "fcurves" ;;
          to_list h fcurves
        else ret []
    end.

Definition remove_fcurve_from_collection (fcurves fcurve : value)
  : M W bool :=
  if is_none fcurves || is_none fcurve then ret false
  else
    try_except
      (call_method h fcurves "remove" (Keyword "fcurve") (AVal fcurve) ;;
       ret true)
      (fun e =>
         match e with
         | TypeError =>
             try_except
               (call_method h fcurves "remove" Positional (AVal fcurve) ;;
                ret true)
               (fun _ => ret false)
         | _ => ret false
         end).

End WithHost.
End Compat.

(** ** [xplane_utils/xplane_anim_compat_bak.py] *)

Module CompatBak.
Section WithHost.
Context {W : Type} (h : Host W).

(** In [get_action_channelbag]:
    [slot is None and getattr(action, "slots", None)], then
    [slot = action.slots[0]]. *)
Definition slot_or_first_getattr (action slot : value) : M W value :=
  if is_none slot then
    slots <- getattr_default h action "slots" VNone ;;
    t <- truthy h slots ;;
    if t then
      slots' <- getattr h action "slots" ;;
      item h slots' 0
    else ret slot
  else ret slot.

(** In [get_fcurves_for_anim_data]:
    [slot is None and hasattr(action, "slots") and action.slots], then
    [slot = action.slots[0]]. *)
Definition slot_or_first (action slot : value) : M W value :=
  if is_none slot then
    has <- hasattr h action "slots" ;;
    if has then
      slots <- getattr h action "slots" ;;
      t <- truthy h slots ;;
      if t then
        slots' <- getattr h action "slots" ;;
        item h slots' 0
      else ret slot
    else ret slot
  else ret slot.

Definition get_action_channelbag (anim_data : value) (ensure : bool)
  : M W value :=
  g <- no_action h anim_data ;;
  if g then ret VNone
  else
    action <- getattr h anim_data "action" ;;
    (* Blender 4.4+/4.5: prefer slot channelbag when slots exist *)
    returned <-
      try_except
        (import_anim_utils h ;;
         slot0 <- getattr_default h anim_data "action_slot" VNone ;;
         slot <- slot_or_first_getattr action slot0 ;;
         if is_none slot then ret None
         else
           cb <- try_except
                   (f <- import_ensure_helper h ;;
                    call_ensure f action slot ensure)
                   (fun _ => call_get_channelbag h action slot) ;;
           ret (Some cb))
        (fun _ => ret None) ;;
    match returned with
    | Some cb => ret cb
    | None =>
        (* Legacy fallback *)
        legacy <- hasattr h action "groups" ;;
        if legacy then ret action else ret VNone
    end.

Definition ensure_action_group (anim_data : value) (group_name : string)
  : M W value :=
  g <- no_action h anim_data ;;
  if g then ret VNone
  else
    container <- get_action_channelbag anim_data true ;;
    c <- truthy h container ;;
    if negb c then ret VNone
    else
      legacy <- hasattr h container "groups" ;;
      if legacy then
        groups <- getattr h container "groups" ;;
        found <- call_method h groups "get" Positional (AStr group_name) ;;
        t <- truthy h found ;;
        if t then ret found
        else
          groups' <- getattr h container "groups" ;;
          call_method h groups' "new" Positional (AStr group_name)
      else
        (* Blender 5.0+ *)
        groups <- getattr h container "groups" ;;
        found <- call_method h groups "get" Positional (AStr group_name) ;;
        t <- truthy h found ;;
        if t then ret found
        else
          groups' <- getattr h container "groups" ;;
          call_method h groups' "new" (Keyword "name") (AStr group_name).

(** The body of [for slot in slots]. *)
Definition walk_slot (action slot : value) : M W unit :=
  cb <- call_get_channelbag h action slot ;;
  t <- truthy h cb ;;
  if t then
    fcurves <- getattr_default h cb "fcurves" VNone ;;
    t' <- truthy h fcurves ;;
    if t' then
      fcurves' <- getattr h cb "fcurves" ;;
      for_in h fcurves' (fun fc => yield fc)
    else ret tt
  else ret tt.

(** Lines 80-92, [try: ... if slots: ... return  except Exception:
    pass].  The block answers whether the function returned from inside
    the [try]. *)
Definition slotted_block (action : value) : M W bool :=
  try_except
    (import_anim_utils h ;;
     slots <- getattr_default h action "slots" VNone ;;
     t <- truthy h slots ;;
     if t then
       for_in h slots (walk_slot action) ;;
       ret true
     else ret false)
    (fun _ => ret false).

(** Lines 94-102, [if hasattr(action, "fcurves"): try: ... return
    except Exception: pass]. *)
Definition legacy_block (action : value) : M W bool :=
  legacy <- hasattr h action "fcurves" ;;
  if legacy then
    try_except
      (fcurves <- getattr h action "fcurves" ;;
       t <- truthy h fcurves ;;
       (if t then
          fcurves' <- getattr h action "fcurves" ;;
          for_in h fcurves' (fun fc => yield fc)
        else ret tt) ;;
       ret true)
      (fun _ => ret false)
  else ret false.

Definition iter_action_fcurves (action : value) : M W unit :=
  if is_none action then ret tt
  else
    (* Blender 4.4+/4.5 slotted actions *)
    returned <- slotted_block action ;;
    if returned then ret tt
    else
      (* Legacy (Blender 2.x-4.x non-slotted) *)
      returned' <- legacy_block action ;;
      if returned' then ret tt
      else
        (* Blender 5.0+ layered API *)
        walk_layers h action.

Definition get_channelbag_for_anim_data (anim_data : value) : M W value :=
  if is_none anim_data then ret VNone
  else
    action <- getattr_default h anim_data "action" VNone ;;
    if is_none action then ret VNone
    else
      imported <- try_except (import_anim_utils h ;; ret true)
                    (fun _ => ret false) ;;
      if negb imported then ret VNone
      else
        slot <- getattr_default h anim_data "action_slot" VNone ;;
        if is_none slot then ret VNone
        else
          try_except (call_get_channelbag h action slot)
            (fun _ => ret VNone).

Definition get_fcurves_for_anim_data (anim_data : value)
  : M W (list value) :=
  g <- no_action h anim_data ;;
  if g then ret []
  else
    action <- getattr h anim_data "action" ;;
    returned <-
      try_except
        (import_anim_utils h ;;
         slot0 <- getattr_default h anim_data "action_slot" VNone ;;
         slot <- slot_or_first action slot0 ;;
         if is_none slot then ret None
         else
           cb <- call_get_channelbag h action slot ;;
           if is_none cb then ret None
           else
             fcurves <- getattr h cb "fcurves" ;;
             l <- to_list h fcurves ;;
             ret (Some l))
        (fun _ => ret None) ;;
    match returned with
    | Some l => ret l
    | None =>
        legacy <- hasattr h action "fcurves" ;;
        if legacy then
          fcurves <- getattr h action "fcurves" ;;
          to_list h fcurves
        else ret []
    end.

Definition remove_fcurve_from_collection (fcurves fcurve : value)
  : M W bool :=
  if is_none fcurves || is_none fcurve then ret false
  else
    try_except
      (call_method h fcurves "remove" (Keyword "fcurve") (AVal fcurve) ;;
       ret true)
      (fun e =>
         match e with
         | TypeError =>
             try_except
               (call_method h fcurves "remove" Positional (AVal fcurve) ;;
                ret true)
               (fun _ => ret false)
         | _ => ret false
         end).

End WithHost.
End CompatBak.

(** ** Hosts given by a table of objects

    Concrete hosts for the examples: each object has a truth value, named
    attributes (a missing name raises [AttributeError]), the items its
    iteration produces and the exception that ends the iteration, if
    any.  The world of such a host is [unit]. *)

Record desc : Type := {
  d_truth : bool;
  d_attrs : list (string * res value);
  d_items : list value;
  d_fail : option exn
}.

(** A plain object: truthy, not iterable. *)
Definition an_object (attrs : list (string * res value)) : desc :=
  {| d_truth := true; d_attrs := attrs; d_items := [];
     d_fail := Some TypeError |}.

(** A collection: truthy when it has items. *)
Definition a_collection (items : list value) : desc :=
  {| d_truth := match items with [] => false | _ => true end;
     d_attrs := []; d_items := items; d_fail := None |}.

(** A collection whose iteration breaks off with [e] after [items]. *)
Definition a_broken_collection (items : list value) (e : exn) : desc :=
  {| d_truth := true; d_attrs := []; d_items := items; d_fail := Some e |}.

Fixpoint find_desc (o : obj) (tbl : list (obj * desc)) : desc :=
  match tbl with
  | [] => an_object []
  | (o', d) :: tbl' => if Nat.eqb o o' then d else find_desc o tbl'
  end.

Fixpoint find_attr (name : string) (attrs : list (string * res value))
  : res value :=
  match attrs with
  | [] => Raise AttributeError
  | (n, r) :: attrs' => if String.eqb name n then r else find_attr name attrs'
  end.

Definition no_methods (o : obj) (meth : string) (c : conv) (a : arg)
  : res value := Raise AttributeError.

Definition table_host (tbl : list (obj * desc)) (anim_utils : bool)
    (get_cb : option (value -> value -> res value))
    (ensure_cb : option (value -> value -> bool -> res value))
    (meth : obj -> string -> conv -> arg -> res value) : Host unit :=
  {| h_truth := fun _ o => d_truth (find_desc o tbl);
     h_attr := fun _ o name => find_attr name (d_attrs (find_desc o tbl));
     h_iter := fun _ o =>
       (d_items (find_desc o tbl), d_fail (find_desc o tbl));
     h_item := fun _ o i =>
       match nth_error (d_items (find_desc o tbl)) i with
       | Some v => Ok v
       | None => Raise IndexError
       end;
     h_anim_utils := anim_utils;
     h_get_channelbag :=
       option_map (fun f (w : unit) a s => (f a s, w)) get_cb;
     h_ensure_channelbag :=
       option_map (fun f (w : unit) a s e => (f a s e, w)) ensure_cb;
     h_method := fun w o m c a => (meth o m c a, w) |}.

(** A legacy host with one AnimData (0), its Action (1) and the Action's
    group collection (2).  The world is the list of groups created so
    far; [get] looks a name up, [new] appends a fresh group. *)
Fixpoint find_group (name : string) (gs : list (string * obj)) : value :=
  match gs with
  | [] => VNone
  | (n, g) :: gs' => if String.eqb name n then VObj g else find_group name gs'
  end.

Definition groups_method (w : list (string * obj)) (o : obj) (meth : string)
    (c : conv) (a : arg) : res value * list (string * obj) :=
  match o, c, a with
  | 2, Positional, AStr name =>
      if String.eqb meth "get" then (Ok (find_group name w), w)
      else if String.eqb meth "new" then
        (Ok (VObj (100 + List.length w)), w ++ [(name, 100 + List.length w)])
      else (Raise AttributeError, w)
  | _, _, _ => (Raise AttributeError, w)
  end.

Definition legacy_host : Host (list (string * obj)) :=
  {| h_truth := fun _ _ => true;
     h_attr := fun _ o name =>
       match o with
       | 0 => if String.eqb name "action" then Ok (VObj 1)
              else Raise AttributeError
       | 1 => if String.eqb name "groups" then Ok (VObj 2)
              else if String.eqb name "fcurves" then Ok (VObj 3)
              else Raise AttributeError
       | _ => Raise AttributeError
       end;
     h_iter := fun _ _ => ([], Some TypeError);
     h_item := fun _ _ _ => Raise TypeError;
     h_anim_utils := true;
     h_get_channelbag := None;
     h_ensure_channelbag := None;
     h_method := groups_method |}.

(** *** The hosts of the examples *)

(** A slotted Action (1) with one slot (3) resolving to a bag (4) that
    holds the curve 6; no [fcurves], no [layers], no [groups].  The
    AnimData (0) has no active slot. *)
Definition slotted_table : list (obj * desc) :=
  [ (0, an_object [("action", Ok (VObj 1)); ("action_slot", Ok VNone)]);
    (1, an_object [("slots", Ok (VObj 2))]);
    (2, a_collection [VObj 3]);
    (4, an_object [("fcurves", Ok (VObj 5))]);
    (5, a_collection [VObj 6]) ].

Definition resolve_slot3 (action slot : value) : res value :=
  if value_eqb action (VObj 1) && value_eqb slot (VObj 3) then Ok (VObj 4)
  else Ok VNone.

Definition slotted_host : Host unit :=
  table_host slotted_table true (Some resolve_slot3)
    (Some (fun a s _ => resolve_slot3 a s)) no_methods.

(** The same Action, now with slot 3 as the AnimData's active slot: a
    Blender 5 host, whose bag (4) has no [groups]. *)
Definition modern_table : list (obj * desc) :=
  [ (0, an_object [("action", Ok (VObj 1)); ("action_slot", Ok (VObj 3))]);
    (1, an_object [("slots", Ok (VObj 2))]);
    (2, a_collection [VObj 3]);
    (4, an_object [("fcurves", Ok (VObj 5))]);
    (5, a_collection [VObj 6]) ].

Definition modern_host : Host unit :=
  table_host modern_table true (Some resolve_slot3)
    (Some (fun a s _ => resolve_slot3 a s)) no_methods.

(** The ensure helper of these hosts, as the host record holds it. *)
Definition resolve_slot3_ensure (w : unit) (action slot : value)
    (ensure : bool) : res value * unit := (resolve_slot3 action slot, w).

(** The helper of [slotted_host], as the host record holds it. *)
Definition resolve_slot3_helper (w : unit) (action slot : value)
  : res value * unit := (resolve_slot3 action slot, w).

(** A legacy Action (1) whose flat collection (2) yields curve 10 and then
    breaks off, and which also has a layer (4) with a strip (6) with a bag
    (8) holding curve 20. *)
Definition broken_flat_table : list (obj * desc) :=
  [ (1, an_object [("fcurves", Ok (VObj 2)); ("layers", Ok (VObj 3))]);
    (2, a_broken_collection [VObj 10] RuntimeError);
    (3, a_collection [VObj 4]);
    (4, an_object [("strips", Ok (VObj 5))]);
    (5, a_collection [VObj 6]);
    (6, an_object [("channelbags", Ok (VObj 7))]);
    (7, a_collection [VObj 8]);
    (8, an_object [("fcurves", Ok (VObj 9))]);
    (9, a_collection [VObj 20]) ].

Definition broken_flat_host : Host unit :=
  table_host broken_flat_table false None None no_methods.

(** A layered Action (1) with two layers, each with one strip, each with
    one channel bag, holding curve 4 and curve 5. *)
Definition layered_table : list (obj * desc) :=
  [ (1, an_object [("layers", Ok (VObj 10))]);
    (10, a_collection [VObj 11; VObj 12]);
    (11, an_object [("strips", Ok (VObj 20))]);
    (12, an_object [("strips", Ok (VObj 30))]);
    (20, a_collection [VObj 21]);
    (30, a_collection [VObj 31]);
    (21, an_object [("channelbags", Ok (VObj 22))]);
    (31, an_object [("channelbags", Ok (VObj 32))]);
    (22, a_collection [VObj 23]);
    (32, a_collection [VObj 33]);
    (23, an_object [("fcurves", Ok (VObj 24))]);
    (33, an_object [("fcurves", Ok (VObj 34))]);
    (24, a_collection [VObj 4]);
    (34, a_collection [VObj 5]) ].

Definition layered_host : Host unit :=
  table_host layered_table false None None no_methods.

(** A layered Action (1) whose layers thin out: a layer (11) without
    [strips], one (12) whose [strips] is [None], one (13) with an empty
    [strips], one (14) whose strip (41) has no [channelbags], one (15)
    whose strip (51) has a bag (52) without [fcurves], and one (16) whose
    strip (61) has a bag (62) holding curve 7. *)
Definition sparse_table : list (obj * desc) :=
  [ (1, an_object [("layers", Ok (VObj 10))]);
    (10, a_collection [VObj 11; VObj 12; VObj 13; VObj 14; VObj 15; VObj 16]);
    (11, an_object []);
    (12, an_object [("strips", Ok VNone)]);
    (13, an_object [("strips", Ok (VObj 30))]);
    (30, a_collection []);
    (14, an_object [("strips", Ok (VObj 40))]);
    (40, a_collection [VObj 41]);
    (41, an_object []);
    (15, an_object [("strips", Ok (VObj 50))]);
    (50, a_collection [VObj 51]);
    (51, an_object [("channelbags", Ok (VObj 53))]);
    (53, a_collection [VObj 52]);
    (52, an_object []);
    (16, an_object [("strips", Ok (VObj 60))]);
    (60, a_collection [VObj 61]);
    (61, an_object [("channelbags", Ok (VObj 63))]);
    (63, a_collection [VObj 62]);
    (62, an_object [("fcurves", Ok (VObj 64))]);
    (64, a_collection [VObj 7]) ].

Definition sparse_host : Host unit :=
  table_host sparse_table true None None no_methods.

(** A legacy Action (1) with the flat collection (2) of curves 8 and 9,
    which also has a layer (4) leading to curve 20. *)
Definition flat_and_layers_table : list (obj * desc) :=
  [ (1, an_object [("fcurves", Ok (VObj 2)); ("layers", Ok (VObj 3))]);
    (2, a_collection [VObj 8; VObj 9]);
    (3, a_collection [VObj 4]);
    (4, an_object [("strips", Ok (VObj 5))]);
    (5, a_collection [VObj 6]);
    (6, an_object [("channelbags", Ok (VObj 7))]);
    (7, a_collection [VObj 18]);
    (18, an_object [("fcurves", Ok (VObj 19))]);
    (19, a_collection [VObj 20]) ].

Definition flat_and_layers_host : Host unit :=
  table_host flat_and_layers_table false None None no_methods.

(** An AnimData (0) without an [action] attribute. *)
Definition bare_host : Host unit :=
  table_host [(0, an_object [])] true None None no_methods.

(** A legacy Action (1) whose group collection (2) finds nothing and
    refuses to create. *)
Definition readonly_methods (o : obj) (meth : string) (c : conv) (a : arg)
  : res value :=
  if Nat.eqb o 2 && String.eqb meth "get" then Ok VNone
  else if Nat.eqb o 2 && String.eqb meth "new" then Raise RuntimeError
  else Raise AttributeError.

Definition readonly_host : Host unit :=
  table_host [ (0, an_object [("action", Ok (VObj 1))]);
               (1, an_object [("groups", Ok (VObj 2))]) ]
    true None None readonly_methods.

(** A layered Action (1) whose layer collection (2) cannot be iterated. *)
Definition broken_layers_host : Host unit :=
  table_host [ (1, an_object [("layers", Ok (VObj 2))]);
               (2, a_broken_collection [] RuntimeError) ]
    true None None no_methods.

(** A slotted host whose helpers fail on every call. *)
Definition failing_helpers_host : Host unit :=
  table_host modern_table true (Some (fun _ _ => Raise RuntimeError))
    (Some (fun _ _ _ => Raise RuntimeError)) no_methods.

(** A Blender 4.4 host: the Action (1) exposes [groups] (2) and has the
    slot 3, which is the AnimData's active slot and resolves to bag 4. *)
Definition mixed_table : list (obj * desc) :=
  [ (0, an_object [("action", Ok (VObj 1)); ("action_slot", Ok (VObj 3))]);
    (1, an_object [("groups", Ok (VObj 2)); ("slots", Ok (VObj 7))]);
    (7, a_collection [VObj 3]);
    (4, an_object [("fcurves", Ok (VObj 5))]);
    (5, a_collection [VObj 6]) ].

Definition mixed_host : Host unit :=
  table_host mixed_table true (Some resolve_slot3)
    (Some (fun a s _ => resolve_slot3 a s)) no_methods.

(** A collection (5) whose [remove] takes the curve by position only. *)
Definition positional_methods (o : obj) (meth : string) (c : conv) (a : arg)
  : res value :=
  if Nat.eqb o 5 && String.eqb meth "remove" then
    match c with
    | Positional => Ok VNone
    | Keyword _ => Raise TypeError
    end
  else Raise AttributeError.

Definition positional_host : Host unit :=
  table_host [(5, a_collection [VObj 6])] true None None positional_methods.

(** An AnimData (0) without an Action. *)
Definition idle_host : Host unit :=
  table_host [(0, an_object [("action", Ok VNone)])] true
    (Some resolve_slot3) (Some (fun a s _ => resolve_slot3 a s)) no_methods.

(** * The vocabulary of the properties *)

(** The two modules' functions, by module. *)
Inductive version : Type := Current | Backup.

Definition ensure_action_group_of (v : version) {W : Type} (h : Host W)
  : value -> string -> M W value :=
  match v with
  | Current => Compat.ensure_action_group h
  | Backup => CompatBak.ensure_action_group h
  end.

Definition iter_action_fcurves_of (v : version) {W : Type} (h : Host W)
  : value -> M W unit :=
  match v with
  | Current => Compat.iter_action_fcurves h
  | Backup => CompatBak.iter_action_fcurves h
  end.

Definition get_action_channelbag_of (v : version) {W : Type} (h : Host W)
  : value -> bool -> M W value :=
  match v with
  | Current => Compat.get_action_channelbag h
  | Backup => CompatBak.get_action_channelbag h
  end.

(** [m] called [n] times in a row by a caller that keeps the results. *)
Fixpoint repeat_calls {W A : Type} (m : M W A) (n : nat) : M W (list A) :=
  match n with
  | 0 => ret []
  | S k => x <- m ;; xs <- repeat_calls m k ;; ret (x :: xs)
  end.

(** A legacy host: the AnimData [ad] holds the Action [a], which has
    neither slots nor an active slot and exposes the group collection
    [gs].  The collection is a lookup table: [get] answers [found w name]
    and changes nothing, groups are truthy, and a [new] that succeeds
    where the name was absent makes [get] find the group it returns. *)
Record LegacyGroups {W : Type} (h : Host W) (ad a gs : obj)
    (found : W -> string -> value) : Prop := {
  lg_anim_data : forall w, h_truth h w ad = true;
  lg_action : forall w, h_attr h w ad "action" = Ok (VObj a);
  lg_action_truth : forall w, h_truth h w a = true;
  lg_no_active_slot : forall w,
    h_attr h w ad "action_slot" = Raise AttributeError;
  lg_no_slots : forall w, h_attr h w a "slots" = Raise AttributeError;
  lg_groups : forall w, h_attr h w a "groups" = Ok (VObj gs);
  lg_get : forall w name,
    h_method h w gs "get" Positional (AStr name) = (Ok (found w name), w);
  lg_group_truth : forall w name g,
    found w name = VObj g -> h_truth h w g = true;
  lg_new : forall w name v w',
    found w name = VNone ->
    h_method h w gs "new" Positional (AStr name) = (Ok v, w') ->
    exists g, v = VObj g /\ found w' name = VObj g
}.

(** A trace that only probes: truth tests and attribute reads. *)
Definition is_probe (e : event) : bool :=
  match e with
  | EvTruth _ | EvGetattr _ _ => true
  | _ => false
  end.

(** A run that answers [none], leaves the world alone and only probes. *)
Definition quiet {W A} (none : A) (w : W) (r : res A * W * list event)
  : Prop :=
  result r = Ok none /\ world r = w /\ forallb is_probe (trace r) = true.

(** The AnimData is [None], or its [action] reads as [None]. *)
Definition no_anim {W} (h : Host W) (w : W) (anim_data : value) : Prop :=
  anim_data = VNone \/
  exists o, anim_data = VObj o /\ h_attr h w o "action" = Ok VNone.

(** The shape an Action is found in, with the curves it holds there:
    per slot, flat, or per layer, strip and channel bag. *)
Inductive shape : Type :=
| Slotted (bs : list (list value))
| Flat (cs : list value)
| Layered (ls : list (list (list (list value)))).

Definition curves (s : shape) : list value :=
  match s with
  | Slotted bs => List.concat bs
  | Flat cs => cs
  | Layered ls => List.concat (List.concat (List.concat ls))
  end.

Section Shapes.
Context {W : Type} (h : Host W) (w : W).

(** [c] is a collection that iterates as [xs] without failing and is
    truthy exactly when it has items. *)
Definition collection (c : obj) (xs : list value) : Prop :=
  h_iter h w c = (xs, None) /\
  h_truth h w c = match xs with [] => false | _ :: _ => true end.

(** [v] has no attribute [name]. *)
Definition lacks (v : value) (name : string) : Prop :=
  match v with
  | VNone => True
  | VObj o => h_attr h w o name = Raise AttributeError
  end.

(** The items found under [v.name]: those of the collection there, and
    none when the attribute is absent, [None] or an empty collection. *)
Definition items_at (v : value) (name : string) (xs : list value) : Prop :=
  match v with
  | VNone => xs = []
  | VObj o =>
      (xs = [] /\ (h_attr h w o name = Raise AttributeError \/
                   h_attr h w o name = Ok VNone)) \/
      (exists c, h_attr h w o name = Ok (VObj c) /\ collection c xs)
  end.

(** The layered shape, level by level. *)
Definition bag_has (cb : value) (cs : list value) : Prop :=
  items_at cb "fcurves" cs.

Definition strip_has (strip : value) (bs : list (list value)) : Prop :=
  exists cbs, items_at strip "channelbags" cbs /\ Forall2 bag_has cbs bs.

Definition layer_has (layer : value) (ss : list (list (list value)))
  : Prop :=
  exists strips, items_at layer "strips" strips /\
                 Forall2 strip_has strips ss.

Definition layers_has (action : value)
    (ls : list (list (list (list value)))) : Prop :=
  exists layers, items_at action "layers" layers /\
                 Forall2 layer_has layers ls.

(** The legacy shape: [action.fcurves] is a collection of [cs]. *)
Definition flat_at (action : value) (cs : list value) : Prop :=
  exists o c, action = VObj o /\
              h_attr h w o "fcurves" = Ok (VObj c) /\ collection c cs.

(** [action.fcurves] is a collection whose iteration breaks off with
    [e] after [pre]. *)
Definition flat_breaks (action : value) (pre : list value) (e : exn)
  : Prop :=
  exists o c, action = VObj o /\
              h_attr h w o "fcurves" = Ok (VObj c) /\
              h_truth h w c = true /\ h_iter h w c = (pre, Some e).

(** The bag a slot resolves to holds [cs]: no bag (or a falsy one)
    holds nothing. *)
Definition resolved_bag_has (cb : value) (cs : list value) : Prop :=
  match cb with
  | VNone => cs = []
  | VObj b =>
      (h_truth h w b = false /\ cs = []) \/
      (h_truth h w b = true /\ items_at cb "fcurves" cs)
  end.

(** The slotted shape: the per-slot helper [f] is there, the Action has
    slots, and each slot resolves (without touching the world) to a bag
    with the given curves. *)
Definition slotted_at (action : value) (bs : list (list value)) : Prop :=
  exists f o c slots,
    h_anim_utils h = true /\ h_get_channelbag h = Some f /\
    action = VObj o /\ h_attr h w o "slots" = Ok (VObj c) /\
    collection c slots /\ slots <> [] /\
    Forall2 (fun slot cs =>
               exists cb, f w action slot = (Ok cb, w) /\
                          resolved_bag_has cb cs) slots bs.

(** The slotted shape does not apply: the helper module or the helper
    is missing, or the Action has no slots. *)
Definition not_slotted (action : value) : Prop :=
  h_anim_utils h = false \/
  items_at action "slots" [] \/
  (h_get_channelbag h = None /\ exists xs, items_at action "slots" xs).

(** The order the specification gives: slotted, else flat, else
    layered. *)
Definition presents (action : value) (s : shape) : Prop :=
  match s with
  | Slotted bs => slotted_at action bs
  | Flat cs => not_slotted action /\ flat_at action cs
  | Layered ls =>
      not_slotted action /\ lacks action "fcurves" /\ layers_has action ls
  end.

(** The order of [xplane_anim_compat.py]: flat, else layered. *)
Definition presents_current (action : value) (s : shape) : Prop :=
  match s with
  | Slotted _ => False
  | Flat cs => flat_at action cs
  | Layered ls => lacks action "fcurves" /\ layers_has action ls
  end.

Definition presents_in (v : version) : value -> shape -> Prop :=
  match v with
  | Current => presents_current
  | Backup => presents
  end.

(** A run that ends normally in the same world, having yielded [ys]. *)
Definition yields_exactly (m : M W unit) (ys : list value) : Prop :=
  exists t, m w = (Ok tt, w, t) /\ yields t = ys.

(** A block that answers [b] in the same world, having yielded [ys]. *)
Definition block_yields (m : M W bool) (b : bool) (ys : list value)
  : Prop :=
  exists t, m w = (Ok b, w, t) /\ yields t = ys.

(** The slotted shape is out of the way: always so in
    [xplane_anim_compat.py], which has no slotted branch. *)
Definition slotted_aside (v : version) (action : value) : Prop :=
  match v with
  | Current => True
  | Backup => not_slotted action
  end.

End Shapes.

(** The host's reads of [v.name] fail, if they do, only because the
    attribute is missing. *)
Definition reads_safely {W : Type} (h : Host W) (v : value) (name : string)
  : Prop :=
  match v with
  | VNone => True
  | VObj o => forall w e, h_attr h w o name = Raise e -> e = AttributeError
  end.

(** The entry of [get_action_channelbag] can be evaluated: the AnimData
    is [None], or its [action] can be read and probed for [groups]. *)
Definition entry_readable {W : Type} (h : Host W) (w : W)
    (anim_data : value) : Prop :=
  match anim_data with
  | VNone => True
  | VObj o => exists a, h_attr h w o "action" = Ok a /\
                        reads_safely h a "groups"
  end.

(** A run that ends without raising. *)
Definition ends_ok {W A : Type} (r : res A * W * list event) : Prop :=
  exists a, result r = Ok a.

(** The specification's [resolve_channel_bag], in its words: (1) legacy
    shape: the Action exposes the collection attribute, return the
    Action; (2) slotted shape: a helper is available, resolve the active
    slot, or the first available slot if none is active, creating the bag
    if [ensure] is set and the host supports creation; (3) otherwise
    none. *)
Definition spec_resolve_channel_bag {W : Type} (h : Host W)
    (anim_data : value) (ensure : bool) : M W value :=
  g <- no_action h anim_data ;;
  if g then ret VNone
  else
    action <- getattr h anim_data "action" ;;
    legacy <- hasattr h action "groups" ;;
    if legacy then ret action
    else
      try_except
        (import_anim_utils h ;;
         active <- getattr_default h anim_data "action_slot" VNone ;;
         slot <- CompatBak.slot_or_first_getattr h action active ;;
         if is_none slot then ret VNone
         else
           try_except
             (f <- import_ensure_helper h ;;
              call_ensure f action slot ensure)
             (fun _ => call_get_channelbag h action slot))
        (fun _ => ret VNone).

(** The entry guard lets the call through: a truthy AnimData [ad] with a
    truthy Action [a]. *)
Definition entered {W : Type} (h : Host W) (w : W) (ad a : obj) : Prop :=
  h_truth h w ad = true /\
  h_attr h w ad "action" = Ok (VObj a) /\
  h_truth h w a = true.

(** The AnimData has no active slot. *)
Definition no_active_slot {W : Type} (h : Host W) (w : W) (ad : obj) : Prop :=
  h_attr h w ad "action_slot" = Raise AttributeError \/
  h_attr h w ad "action_slot" = Ok VNone.

(** [None] where the helper raised. *)
Definition or_none (r : res value) : res value :=
  match r with
  | Ok v => Ok v
  | Raise _ => Ok VNone
  end.

(** ** Further vocabulary *)

(** Events that ask the host nothing it could act on: truth tests,
    attribute reads, iteration, indexing, and yields to the consumer. *)
Definition is_passive (e : event) : bool :=
  match e with
  | EvTruth _ | EvGetattr _ _ | EvIter _ | EvItem _ _ | EvYield _ => true
  | _ => false
  end.

(** Events other than calls of helpers and methods. *)
Definition is_call_free (e : event) : bool :=
  match e with
  | EvHelper _ _ _ _ | EvMethod _ _ _ _ => false
  | _ => true
  end.

(** Every event of [m] satisfies [P], and runs of [m] that call nothing
    leave the world as it was. *)
Definition confined {W A : Type} (P : event -> bool) (m : M W A) : Prop :=
  forall w,
    forallb P (trace (m w)) = true /\
    (forallb is_call_free (trace (m w)) = true -> world (m w) = w).

(** Passive events, the import of [bpy_extras.anim_utils] and calls of
    [action_get_channelbag_for_slot]: what the backup generator may do. *)
Definition is_lookup (e : event) : bool :=
  match e with
  | EvImport name => String.eqb name "bpy_extras.anim_utils"
  | EvHelper _ _ _ None => true
  | EvHelper _ _ _ (Some _) => false
  | EvMethod _ _ _ _ => false
  | _ => true
  end.

(** No method call, and the ensure helper only with the flag [ensure]. *)
Definition passes_flag (ensure : bool) (e : event) : bool :=
  match e with
  | EvHelper _ _ _ (Some b) => Bool.eqb b ensure
  | EvMethod _ _ _ _ => false
  | _ => true
  end.

(** The ensure helper only with the flag [True]; of the methods only
    [get] and [new], called with the group name. *)
Definition groups_only (group_name : string) (e : event) : bool :=
  match e with
  | EvHelper _ _ _ (Some b) => b
  | EvMethod _ meth _ (AStr name) =>
      (String.eqb meth "get" || String.eqb meth "new")
      && String.eqb name group_name
  | EvMethod _ _ _ (AVal _) => false
  | _ => true
  end.

(** What a run leaves behind, the trace apart. *)
Definition outcome {W A : Type} (r : res A * W * list event) : res A * W :=
  (result r, world r).

(** The Action's first slot is [s]. *)
Definition first_slot {W : Type} (h : Host W) (w : W) (a s : obj) : Prop :=
  exists c, h_attr h w a "slots" = Ok (VObj c) /\
            h_truth h w c = true /\
            h_item h w c 0 = Ok (VObj s).

(** The legacy collection of the Action can be listed in every world:
    it is missing, or a collection whose iteration does not fail. *)
Definition legacy_listable {W : Type} (h : Host W) (a : obj) : Prop :=
  forall w,
    h_attr h w a "fcurves" = Raise AttributeError \/
    exists c, h_attr h w a "fcurves" = Ok (VObj c) /\
              snd (h_iter h w c) = None.

(** A slotted Action (1) with the slot 3 as first slot, resolving to bag
    4 with curve 6, next to a legacy collection (8) with curve 9; the
    AnimData (0) has no active slot. *)
Definition first_slot_table : list (obj * desc) :=
  [ (0, an_object [("action", Ok (VObj 1)); ("action_slot", Ok VNone)]);
    (1, an_object [("slots", Ok (VObj 2)); ("fcurves", Ok (VObj 8))]);
    (2, a_collection [VObj 3]);
    (4, an_object [("fcurves", Ok (VObj 5))]);
    (5, a_collection [VObj 6]);
    (8, a_collection [VObj 9]) ].

Definition first_slot_host : Host unit :=
  table_host first_slot_table true (Some resolve_slot3) None no_methods.

(** The same with slot 3 active and a bag whose curves cannot be
    listed. *)
Definition broken_bag_table : list (obj * desc) :=
  [ (0, an_object [("action", Ok (VObj 1)); ("action_slot", Ok (VObj 3))]);
    (1, an_object [("slots", Ok (VObj 2)); ("fcurves", Ok (VObj 8))]);
    (2, a_collection [VObj 3]);
    (4, an_object [("fcurves", Ok (VObj 5))]);
    (5, a_broken_collection [VObj 6] RuntimeError);
    (8, a_collection [VObj 9]) ].

Definition broken_bag_host : Host unit :=
  table_host broken_bag_table true (Some resolve_slot3) None no_methods.

(** A legacy Action (1) whose [fcurves] reads as [None], with a layer (4)
    leading to curve 20. *)
Definition none_flat_table : list (obj * desc) :=
  [ (0, an_object [("action", Ok (VObj 1))]);
    (1, an_object [("fcurves", Ok VNone); ("layers", Ok (VObj 3))]);
    (3, a_collection [VObj 4]);
    (4, an_object [("strips", Ok (VObj 5))]);
    (5, a_collection [VObj 6]);
    (6, an_object [("channelbags", Ok (VObj 7))]);
    (7, a_collection [VObj 18]);
    (18, an_object [("fcurves", Ok (VObj 19))]);
    (19, a_collection [VObj 20]) ].

Definition none_flat_host : Host unit :=
  table_host none_flat_table false None None no_methods.

(** The slot [get_fcurves_for_anim_data] resolves: the AnimData's active
    slot or, without one, the Action's first slot. *)
Definition chosen_slot {W : Type} (h : Host W) (w : W) (ad a s : obj)
  : Prop :=
  h_attr h w ad "action_slot" = Ok (VObj s) \/
  (no_active_slot h w ad /\ first_slot h w a s).

(** The slot path of [get_fcurves_for_anim_data], the [try] block of
    lines 140-153 with its [except Exception: pass]: it answers the list
    the block returns, or nothing where the block falls through or
    fails. *)
Definition fcurves_slot_path {W : Type} (h : Host W)
    (anim_data action : value) : M W (option (list value)) :=
  try_except
    (import_anim_utils h ;;
     slot0 <- getattr_default h anim_data "action_slot" VNone ;;
     slot <- Compat.slot_or_first h action slot0 ;;
     if is_none slot then ret None
     else
       cb <- call_get_channelbag h action slot ;;
       if is_none cb then ret None
       else
         fcurves <- getattr h cb "fcurves" ;;
         l <- to_list h fcurves ;;
         ret (Some l))
    (fun _ => ret None).

(** The bag the helper answered gives no list in world [w1]: there is no
    bag, or its [fcurves] cannot be read, is [None], or breaks off while
    being listed. *)
Definition bag_unlistable {W : Type} (h : Host W) (w1 : W) (cb : value)
  : Prop :=
  match cb with
  | VNone => True
  | VObj b =>
      (exists e, h_attr h w1 b "fcurves" = Raise e) \/
      h_attr h w1 b "fcurves" = Ok VNone \/
      (exists c pre e, h_attr h w1 b "fcurves" = Ok (VObj c) /\
                       h_iter h w1 c = (pre, Some e))
  end.

(** No slot is found: the AnimData has no active slot and the Action has
    no slots, or its first slot cannot be taken or is [None]. *)
Definition no_slot_found {W : Type} (h : Host W) (w : W) (ad a : obj)
  : Prop :=
  no_active_slot h w ad /\
  (items_at h w (VObj a) "slots" [] \/
   exists sl, h_attr h w a "slots" = Ok (VObj sl) /\
              h_truth h w sl = true /\
              (h_item h w sl 0 = Ok VNone \/
               exists e, h_item h w sl 0 = Raise e)).

(** The slot path of [get_fcurves_for_anim_data] ends without a list,
    leaving the world [w1]: the helper module is missing; the active slot
    cannot be read; no slot is found; or, for the slot resolved (the
    active one or the Action's first), the helper is missing, raises, or
    answers something that gives no list. *)
Definition slot_path_fails {W : Type} (h : Host W) (w : W) (ad a : obj)
    (w1 : W) : Prop :=
  (h_anim_utils h = false /\ w1 = w) \/
  (h_anim_utils h = true /\
   ((w1 = w /\
     exists e, h_attr h w ad "action_slot" = Raise e /\
               is_AttributeError e = false) \/
    (w1 = w /\ no_slot_found h w ad a) \/
    (exists s,
       chosen_slot h w ad a s /\
       ((w1 = w /\ h_get_channelbag h = None) \/
        exists f,
          h_get_channelbag h = Some f /\
          ((exists e, f w (VObj a) (VObj s) = (Raise e, w1)) \/
           exists cb, f w (VObj a) (VObj s) = (Ok cb, w1) /\
                      bag_unlistable h w1 cb))))).

(** A legacy host as [legacy_host], on which [bpy_extras.anim_utils]
    cannot be imported. *)
Definition old_legacy_host : Host (list (string * obj)) :=
  {| h_truth := h_truth legacy_host;
     h_attr := h_attr legacy_host;
     h_iter := h_iter legacy_host;
     h_item := h_item legacy_host;
     h_anim_utils := false;
     h_get_channelbag := None;
     h_ensure_channelbag := None;
     h_method := h_method legacy_host |}.

(** A slotted Action (1) without an active slot whose slot collection
    (2) is truthy but cannot be indexed, next to a legacy collection (8)
    with curve 9. *)
Definition no_first_slot_host : Host unit :=
  table_host
    [ (0, an_object [("action", Ok (VObj 1)); ("action_slot", Ok VNone)]);
      (1, an_object [("slots", Ok (VObj 2)); ("fcurves", Ok (VObj 8))]);
      (2, a_broken_collection [] IndexError);
      (8, a_collection [VObj 9]) ]
    true (Some resolve_slot3) None no_methods.

(** A legacy AnimData (0) whose Action (1) has the flat collection (2)
    of curves 8 and 9. *)
Definition flat_anim_host : Host unit :=
  table_host [ (0, an_object [("action", Ok (VObj 1))]);
               (1, an_object [("fcurves", Ok (VObj 2))]);
               (2, a_collection [VObj 8; VObj 9]) ]
    false None None no_methods.

(** A slotted Action (1) with the slots 3 and 13: slot 3 resolves to bag
    4 with curve 6, slot 13 makes the helper fail; the Action also has a
    legacy collection (8) with curve 9. *)
Definition two_slots_table : list (obj * desc) :=
  [ (1, an_object [("slots", Ok (VObj 2)); ("fcurves", Ok (VObj 8))]);
    (2, a_collection [VObj 3; VObj 13]);
    (4, an_object [("fcurves", Ok (VObj 5))]);
    (5, a_collection [VObj 6]);
    (8, a_collection [VObj 9]) ].

Definition resolve_or_fail (w : unit) (action slot : value)
  : res value * unit :=
  (if value_eqb slot (VObj 13) then Raise RuntimeError
   else resolve_slot3 action slot, w).

Definition two_slots_host : Host unit :=
  {| h_truth := h_truth (table_host two_slots_table true None None no_methods);
     h_attr := h_attr (table_host two_slots_table true None None no_methods);
     h_iter := h_iter (table_host two_slots_table true None None no_methods);
     h_item := h_item (table_host two_slots_table true None None no_methods);
     h_anim_utils := true;
     h_get_channelbag := Some resolve_or_fail;
     h_ensure_channelbag := None;
     h_method := fun w o m c a => (Raise AttributeError, w) |}.

(** What the legacy probe answers in world [w]: the Action where it
    exposes [groups], [None] where it does not. *)
Definition legacy_answer {W : Type} (h : Host W) (w : W) (a : obj)
  : res value :=
  match h_attr h w a "groups" with
  | Ok _ => Ok (VObj a)
  | Raise AttributeError => Ok VNone
  | Raise e => Raise e
  end.

(** The plain helper resolves the slot [s]; where the helper is missing
    or raises, the legacy probe answers in the world that is left. *)
Definition plain_then_legacy {W : Type} (h : Host W) (w : W) (a s : obj)
  : res value * W :=
  match h_get_channelbag h with
  | Some g =>
      match g w (VObj a) (VObj s) with
      | (Ok cb, w') => (Ok cb, w')
      | (Raise _, w') => (legacy_answer h w' a, w')
      end
  | None => (legacy_answer h w a, w)
  end.

(** What the slotted probe of [xplane_anim_compat_bak.py] comes to for
    the slot [s]: the ensure helper's answer; where that helper is
    missing or raises, the plain helper's; where that one is missing or
    raises too, the legacy probe's. *)
Definition backup_slot_outcome {W : Type} (h : Host W) (w : W) (a s : obj)
    (ensure : bool) : res value * W :=
  match h_ensure_channelbag h with
  | Some f =>
      match f w (VObj a) (VObj s) ensure with
      | (Ok cb, w') => (Ok cb, w')
      | (Raise _, w') => plain_then_legacy h w' a s
      end
  | None => plain_then_legacy h w a s
  end.

(** * Properties *)

(** ** The duplicated functions agree *)

Lemma bak_remove_same W (h : Host W) :
  CompatBak.remove_fcurve_from_collection h
  = Compat.remove_fcurve_from_collection h.
Proof. reflexivity. Qed.

Lemma bak_get_channelbag_for_anim_data_same W (h : Host W) :
  CompatBak.get_channelbag_for_anim_data h
  = Compat.get_channelbag_for_anim_data h.
Proof. reflexivity. Qed.

Lemma bak_get_fcurves_for_anim_data_same W (h : Host W) :
  CompatBak.get_fcurves_for_anim_data h
  = Compat.get_fcurves_for_anim_data h.
Proof. reflexivity. Qed.

(** ** Reasoning about runs *)

(** Unfolds the monad and the primitives in the goal. *)
Ltac run_unfold :=
  cbv [bind ret raise try_except emit truthy getattr hasattr getattr_default
       item yield finish import_anim_utils import_ensure_helper call_ensure
       call_get_channelbag call_method no_action is_none is_AttributeError
       negb orb result world trace fst snd].

(** ** C10 *)

(** C10: [iter_action_fcurves] called with a [None] action yields nothing
    and returns at once: whatever the host, the run ends normally with an
    empty trace (no attribute read, no truth test, no import, no yield),
    in both modules. *)
Theorem iter_action_fcurves_none :
  forall (W : Type) (h : Host W) (w : W),
    Compat.iter_action_fcurves h VNone w = (Ok tt, w, []) /\
    CompatBak.iter_action_fcurves h VNone w = (Ok tt, w, []).
Proof. intros; split; reflexivity. Qed.

(** ** C9 *)

Lemma no_action_quiet W (h : Host W) w anim_data :
  no_anim h w anim_data ->
  exists t, no_action h anim_data w = (Ok true, w, t) /\
            forallb is_probe t = true.
Proof.
  intros [-> | (o & -> & Ha)]; run_unfold.
  - eexists; split; reflexivity.
  - destruct (h_truth h w o); rewrite ?Ha; eexists; split; reflexivity.
Qed.

(** C9: with a [None] AnimData, or an AnimData whose [action] is [None],
    every resolver of both modules answers [None] (or the empty list),
    leaves the host's world as it was and does nothing but probe the
    AnimData: no helper is imported or called, no method is called, so no
    ChannelBag and no Group is created. *)
Theorem resolvers_quiet_without_action :
  forall (W : Type) (h : Host W) (w : W) (anim_data : value)
         (ensure : bool) (group_name : string),
    no_anim h w anim_data ->
    quiet VNone w (Compat.get_action_channelbag h anim_data ensure w) /\
    quiet VNone w (Compat.ensure_action_group h anim_data group_name w) /\
    quiet VNone w (Compat.get_channelbag_for_anim_data h anim_data w) /\
    quiet [] w (Compat.get_fcurves_for_anim_data h anim_data w) /\
    quiet VNone w (CompatBak.get_action_channelbag h anim_data ensure w) /\
    quiet VNone w (CompatBak.ensure_action_group h anim_data group_name w) /\
    quiet VNone w (CompatBak.get_channelbag_for_anim_data h anim_data w) /\
    quiet [] w (CompatBak.get_fcurves_for_anim_data h anim_data w).
Proof.
  intros W h w anim_data ensure group_name Hn.
  destruct (no_action_quiet W h w anim_data Hn) as (t & Hg & Ht).
  assert (Hguard : forall A (none : A) (k : bool -> M W A),
             k true = ret none ->
             quiet none w (bind (no_action h anim_data) k w)).
  { intros A none k Hk. unfold bind at 1. rewrite Hg, Hk. unfold ret.
    unfold quiet, result, world, trace; simpl. rewrite app_nil_r. auto. }
  assert (Hcb : quiet VNone w (Compat.get_channelbag_for_anim_data h anim_data w)).
  { unfold Compat.get_channelbag_for_anim_data.
    destruct Hn as [-> | (o & -> & Ha)]; run_unfold; unfold quiet.
    - simpl; auto.
    - rewrite Ha. simpl. auto. }
  repeat match goal with |- _ /\ _ => split end;
    solve [ exact Hcb
          | unfold Compat.get_action_channelbag, Compat.ensure_action_group,
              Compat.get_fcurves_for_anim_data,
              CompatBak.get_action_channelbag, CompatBak.ensure_action_group,
              CompatBak.get_fcurves_for_anim_data;
            apply Hguard; reflexivity ].
Qed.

(** ** C6 *)

(** C6: [remove_fcurve_from_collection] always ends normally with a
    boolean (it never raises, whatever the host does).  It answers
    [False] without calling the host when either argument is [None];
    [True] when the keyword call [remove(fcurve=...)] succeeds; after a
    [TypeError] of the keyword call, and only then, it makes the
    positional call and answers whether that one succeeded; after any
    other failure of the keyword call it answers [False] and makes no
    second call.  The backup module's function is the same. *)
Theorem remove_fcurve_from_collection_spec :
  forall (W : Type) (h : Host W) (w : W) (fcurves fcurve : value),
    let run := Compat.remove_fcurve_from_collection h fcurves fcurve w in
    CompatBak.remove_fcurve_from_collection h fcurves fcurve w = run /\
    (exists b, result run = Ok b) /\
    (fcurves = VNone \/ fcurve = VNone -> run = (Ok false, w, [])) /\
    (forall c x, fcurves = VObj c -> fcurve = VObj x ->
       let kw := EvMethod c "remove" (Keyword "fcurve") (AVal fcurve) in
       let pos := EvMethod c "remove" Positional (AVal fcurve) in
       match h_method h w c "remove" (Keyword "fcurve") (AVal fcurve) with
       | (Ok _, w1) => run = (Ok true, w1, [kw])
       | (Raise TypeError, w1) =>
           match h_method h w1 c "remove" Positional (AVal fcurve) with
           | (Ok _, w2) => run = (Ok true, w2, [kw; pos])
           | (Raise _, w2) => run = (Ok false, w2, [kw; pos])
           end
       | (Raise _, w1) => run = (Ok false, w1, [kw])
       end).
Proof.
  intros W h w fcurves fcurve run.
  split; [reflexivity|].
  assert (Hcases :
    forall c x, fcurves = VObj c -> fcurve = VObj x ->
       let kw := EvMethod c "remove" (Keyword "fcurve") (AVal fcurve) in
       let pos := EvMethod c "remove" Positional (AVal fcurve) in
       match h_method h w c "remove" (Keyword "fcurve") (AVal fcurve) with
       | (Ok _, w1) => run = (Ok true, w1, [kw])
       | (Raise TypeError, w1) =>
           match h_method h w1 c "remove" Positional (AVal fcurve) with
           | (Ok _, w2) => run = (Ok true, w2, [kw; pos])
           | (Raise _, w2) => run = (Ok false, w2, [kw; pos])
           end
       | (Raise _, w1) => run = (Ok false, w1, [kw])
       end).
  { intros c x -> ->. subst run.
    unfold Compat.remove_fcurve_from_collection. run_unfold.
    destruct (h_method h w c "remove" (Keyword "fcurve") (AVal (VObj x)))
      as [[v|e] w1]; [reflexivity|].
    destruct e; try reflexivity.
    destruct (h_method h w1 c "remove" Positional (AVal (VObj x)))
      as [[v|e] w2]; reflexivity. }
  assert (Hnone : fcurves = VNone \/ fcurve = VNone -> run = (Ok false, w, [])).
  { intros [-> | ->]; subst run; [reflexivity|].
    destruct fcurves; reflexivity. }
  split; [|split; [exact Hnone|exact Hcases]].
  destruct fcurves as [|c]; [exists false; rewrite Hnone; auto|].
  destruct fcurve as [|x]; [exists false; rewrite Hnone; auto|].
  specialize (Hcases c x eq_refl eq_refl). cbv zeta in Hcases.
  destruct (h_method h w c "remove" (Keyword "fcurve") (AVal (VObj x)))
    as [[v|e] w1].
  - rewrite Hcases; eexists; reflexivity.
  - destruct e; try (rewrite Hcases; eexists; reflexivity).
    destruct (h_method h w1 c "remove" Positional (AVal (VObj x)))
      as [[v|e] w2]; rewrite Hcases; eexists; reflexivity.
Qed.

(** ** C8 *)

Lemma method_calls_app meth t1 t2 :
  method_calls meth (t1 ++ t2) = method_calls meth t1 + method_calls meth t2.
Proof.
  induction t1 as [|e t1 IH]; simpl; [reflexivity|].
  destruct e; simpl; rewrite IH; lia.
Qed.

Section LegacyContainer.
Context {W : Type} (h : Host W) (ad a gs : obj)
        (found : W -> string -> value).
Hypothesis legacy : LegacyGroups h ad a gs found.

Ltac legacy_rewrite :=
  repeat (progress
    (repeat first
       [ rewrite (lg_anim_data h ad a gs found legacy)
       | rewrite (lg_action h ad a gs found legacy)
       | rewrite (lg_action_truth h ad a gs found legacy)
       | rewrite (lg_no_active_slot h ad a gs found legacy)
       | rewrite (lg_no_slots h ad a gs found legacy)
       | rewrite (lg_groups h ad a gs found legacy)
       | rewrite (lg_get h ad a gs found legacy)
       | match goal with H : found _ _ = _ |- _ => rewrite H end
       | match goal with H : h_truth _ _ _ = _ |- _ => rewrite H end ];
     cbv beta iota)).

(** Where the group exists, a call looks it up and creates nothing. *)
Lemma ensure_action_group_present v w name g :
  found w name = VObj g ->
  exists t,
    ensure_action_group_of v h (VObj ad) name w = (Ok (VObj g), w, t) /\
    method_calls "new" t = 0.
Proof.
  intros Hf.
  pose proof (lg_group_truth h ad a gs found legacy w name g Hf) as Hg.
  destruct v; cbv [ensure_action_group_of Compat.ensure_action_group
    Compat.get_action_channelbag CompatBak.ensure_action_group
    CompatBak.get_action_channelbag CompatBak.slot_or_first_getattr
    h_anim_utils];
    run_unfold; legacy_rewrite.
  - eexists; split; reflexivity.
  - destruct (h_anim_utils h); legacy_rewrite;
      eexists; split; reflexivity.
Qed.

(** Where it does not, a call makes exactly one [new] call and answers
    what that call answers. *)
Lemma ensure_action_group_absent v w name :
  found w name = VNone ->
  exists t,
    ensure_action_group_of v h (VObj ad) name w
    = (fst (h_method h w gs "new" Positional (AStr name)),
       snd (h_method h w gs "new" Positional (AStr name)), t) /\
    method_calls "new" t = 1.
Proof.
  intros Hf.
  destruct v; cbv [ensure_action_group_of Compat.ensure_action_group
    Compat.get_action_channelbag CompatBak.ensure_action_group
    CompatBak.get_action_channelbag CompatBak.slot_or_first_getattr
    h_anim_utils];
    run_unfold; legacy_rewrite.
  - destruct (h_method h w gs "new" Positional (AStr name)) as [[v|e] w'];
      eexists; split; reflexivity.
  - destruct (h_anim_utils h); legacy_rewrite;
      destruct (h_method h w gs "new" Positional (AStr name))
        as [[v|e] w'];
      eexists; split; reflexivity.
Qed.

Lemma repeat_calls_present v w name g n :
  found w name = VObj g ->
  exists t,
    repeat_calls (ensure_action_group_of v h (VObj ad) name) n w
    = (Ok (repeat (VObj g) n), w, t) /\
    method_calls "new" t = 0.
Proof.
  intros Hf. induction n as [|n (t & IH & Hc)]; simpl.
  - eexists; split; reflexivity.
  - destruct (ensure_action_group_present v w name g Hf) as (t1 & H1 & Hc1).
    unfold bind at 1. rewrite H1.
    unfold bind at 1. rewrite IH. unfold ret.
    eexists; split; [reflexivity|].
    rewrite !method_calls_app, Hc1, Hc. reflexivity.
Qed.

Lemma repeat_calls_summary v w name n :
  exists r w2 t,
    repeat_calls (ensure_action_group_of v h (VObj ad) name) n w
    = (r, w2, t) /\
    method_calls "new" t
    = (if is_none (found w name) then Nat.min n 1 else 0) /\
    (forall rs, r = Ok rs ->
       exists g, rs = repeat (VObj g) n /\
                 (0 < n -> found w2 name = VObj g)).
Proof.
  destruct (found w name) as [|g] eqn:Hf; cbn [is_none].
  - destruct n as [|n].
    + exists (Ok []), w, []. split; [reflexivity|]. split; [reflexivity|].
      intros rs Hrs. injection Hrs as <-.
      exists 0. split; [reflexivity|lia].
    + destruct (ensure_action_group_absent v w name Hf) as (t1 & H1 & Hc1).
      pose proof (lg_new h ad a gs found legacy w name) as Hnew.
      destruct (h_method h w gs "new" Positional (AStr name)) as [r w'].
      simpl in H1.
      cbn [repeat_calls]. unfold bind at 1. rewrite H1.
      destruct r as [v0|e].
      * destruct (Hnew v0 w' Hf eq_refl) as (g & -> & Hf').
        destruct (repeat_calls_present v w' name g n Hf') as (t & Hr & Hc).
        unfold bind at 1. rewrite Hr. unfold ret.
        do 3 eexists. split; [reflexivity|].
        rewrite !method_calls_app, Hc1, Hc. split; [simpl; lia|].
        intros rs Hrs. injection Hrs as <-.
        exists g. split; [reflexivity|auto].
      * do 3 eexists. split; [reflexivity|].
        split; [rewrite Hc1; simpl; lia|]. discriminate.
  - destruct (repeat_calls_present v w name g n Hf) as (t & Hr & Hc).
    rewrite Hr. do 3 eexists. split; [reflexivity|].
    split; [exact Hc|]. intros rs Hrs. injection Hrs as <-.
    exists g. auto.
Qed.


End LegacyContainer.

(** ** What an Action presents to [iter_action_fcurves] *)

Lemma yields_app t1 t2 : yields (t1 ++ t2) = yields t1 ++ yields t2.
Proof.
  induction t1 as [|e t1 IH]; simpl; [reflexivity|].
  destruct e; simpl; rewrite ?IH; reflexivity.
Qed.

Section Walks.
Context {W : Type} (h : Host W) (w : W).

Lemma run_items_yields body xs yss :
  Forall2 (fun x ys => yields_exactly w (body x) ys) xs yss ->
  yields_exactly w (run_items xs body) (List.concat yss).
Proof.
  induction 1 as [|x ys xs yss (t & Hx & Ht) _ (t' & IH & Ht')]; simpl.
  - exists []. split; reflexivity.
  - exists (t ++ t'). unfold bind. rewrite Hx, IH.
    split; [reflexivity|]. rewrite yields_app, Ht, Ht'. reflexivity.
Qed.

Lemma for_in_yields c body xs yss :
  collection h w c xs ->
  Forall2 (fun x ys => yields_exactly w (body x) ys) xs yss ->
  yields_exactly w (for_in h (VObj c) body) (List.concat yss).
Proof.
  intros [Hi _] HF.
  destruct (run_items_yields body xs yss HF) as (t & Hr & Ht).
  exists (EvIter c :: t). unfold for_in. rewrite Hi. cbn [fst snd finish].
  unfold bind at 1. unfold emit at 1. unfold bind at 1. rewrite Hr.
  unfold ret. rewrite app_nil_r. split; [reflexivity|exact Ht].
Qed.

(** The pattern of every level of the walk. *)
Lemma walk_attr_yields v name body xs yss :
  items_at h w v name xs ->
  Forall2 (fun x ys => yields_exactly w (body x) ys) xs yss ->
  yields_exactly w
    (c <- getattr_default h v name VNone ;;
     b <- truthy h c ;;
     if negb b then ret tt else for_in h c body)
    (List.concat yss).
Proof.
  intros Hv HF. destruct v as [|o]; simpl in Hv.
  - subst xs. inversion HF; subst. exists []. split; reflexivity.
  - destruct Hv as [(-> & Ha) | (c & Ha & Hc)].
    + inversion HF; subst.
      eexists. run_unfold. destruct Ha as [-> | ->]; split; reflexivity.
    + destruct xs as [|x xs'].
      * inversion HF; subst. destruct Hc as [_ Ht].
        eexists. run_unfold. rewrite Ha, Ht. split; reflexivity.
      * destruct (for_in_yields c body _ _ Hc HF) as (t & Hr & Hy).
        destruct Hc as [_ Ht].
        exists ([EvGetattr o name] ++ [EvTruth c] ++ t).
        unfold bind at 1. unfold getattr_default, try_except, getattr.
        rewrite Ha. unfold bind at 1. unfold truthy at 1. rewrite Ht.
        cbn [negb]. rewrite Hr. split; [reflexivity|].
        rewrite !yields_app, Hy. reflexivity.
Qed.

Lemma concat_singletons (xs : list value) :
  List.concat (map (fun x => [x]) xs) = xs.
Proof. induction xs; simpl; congruence. Qed.

Lemma yield_each (xs : list value) :
  Forall2 (fun x ys => yields_exactly w (yield x) ys) xs
          (map (fun x => [x]) xs).
Proof.
  induction xs; constructor; auto. exists [EvYield a]. split; reflexivity.
Qed.

Lemma walk_channelbag_yields cb cs :
  bag_has h w cb cs -> yields_exactly w (walk_channelbag h cb) cs.
Proof.
  intros Hb. rewrite <- (concat_singletons cs).
  exact (walk_attr_yields cb "fcurves" _ cs _ Hb (yield_each cs)).
Qed.

Lemma walk_strip_yields strip bs :
  strip_has h w strip bs -> yields_exactly w (walk_strip h strip) (List.concat bs).
Proof.
  intros (cbs & Hi & HF).
  apply (walk_attr_yields strip "channelbags" _ cbs bs Hi).
  eapply Forall2_impl; [|exact HF]. apply walk_channelbag_yields.
Qed.

Lemma concat_twice {A} (l : list (list (list A))) :
  List.concat (List.concat l) = List.concat (map (@List.concat A) l).
Proof.
  induction l as [|x l IH]; simpl; [reflexivity|].
  rewrite concat_app, IH. reflexivity.
Qed.

Lemma concat_thrice {A} (l : list (list (list (list A)))) :
  List.concat (List.concat (List.concat l))
  = List.concat (map (fun x => List.concat (List.concat x)) l).
Proof.
  induction l as [|x l IH]; simpl; [reflexivity|].
  rewrite !concat_app, IH. reflexivity.
Qed.

Lemma walk_layer_yields layer ss :
  layer_has h w layer ss ->
  yields_exactly w (walk_layer h layer) (List.concat (List.concat ss)).
Proof.
  intros (strips & Hi & HF). rewrite concat_twice.
  apply (walk_attr_yields layer "strips" _ strips _ Hi).
  clear Hi. induction HF; constructor; auto.
  apply walk_strip_yields; assumption.
Qed.

Lemma walk_layers_yields action ls :
  layers_has h w action ls ->
  yields_exactly w (walk_layers h action)
    (List.concat (List.concat (List.concat ls))).
Proof.
  intros (layers & Hi & HF). rewrite concat_thrice.
  apply (walk_attr_yields action "layers" _ layers _ Hi).
  clear Hi. induction HF; constructor; auto.
  apply walk_layer_yields; assumption.
Qed.

End Walks.

(** ** [iter_action_fcurves] against the shapes *)

Section Iteration.
Context {W : Type} (h : Host W) (w : W).

Lemma for_in_yield_all c cs :
  collection h w c cs ->
  yields_exactly w (for_in h (VObj c) (fun fc => yield fc)) cs.
Proof.
  intros Hc. rewrite <- (concat_singletons cs).
  exact (for_in_yields h w c _ cs _ Hc (yield_each w cs)).
Qed.

(** An iteration that breaks off raises, after yielding what it got. *)
Lemma for_in_yield_breaks c pre e :
  h_iter h w c = (pre, Some e) ->
  exists t, for_in h (VObj c) (fun fc => yield fc) w = (Raise e, w, t) /\
            yields t = pre.
Proof.
  intros Hi.
  destruct (run_items_yields w (fun fc => yield fc) pre _ (yield_each w pre))
    as (t & Hr & Ht).
  rewrite concat_singletons in Ht.
  exists (EvIter c :: t ++ []). unfold for_in. rewrite Hi.
  cbn [fst snd finish].
  unfold bind at 1. unfold emit at 1. unfold bind at 1. rewrite Hr.
  unfold raise. split; [reflexivity|].
  simpl. rewrite app_nil_r. exact Ht.
Qed.

(** *** The blocks of [xplane_anim_compat.py] *)

Ltac trace_yields H :=
  cbn [yields app]; rewrite ?app_nil_r, ?yields_app; cbn [yields app];
  rewrite ?app_nil_r; try exact H; try reflexivity.

Lemma current_legacy_flat action cs :
  flat_at h w action cs ->
  block_yields w (Compat.legacy_block h action) true cs.
Proof.
  intros (o & c & -> & Ha & Hc).
  destruct (for_in_yield_all c cs Hc) as (t & Hr & Ht).
  eexists. split.
  - unfold Compat.legacy_block.
    unfold bind at 1. unfold hasattr, try_except at 1, bind at 1, getattr.
    rewrite Ha. unfold ret at 1.
    unfold try_except, bind at 1. rewrite Ha.
    unfold bind at 1. rewrite Hr. unfold ret. reflexivity.
  - trace_yields Ht.
Qed.

Lemma current_legacy_lacks o :
  lacks h w (VObj o) "fcurves" ->
  block_yields w (Compat.legacy_block h (VObj o)) false [].
Proof.
  simpl. intros Ha. eexists. unfold Compat.legacy_block. run_unfold.
  rewrite Ha. split; reflexivity.
Qed.

Lemma current_legacy_breaks action pre e :
  flat_breaks h w action pre e ->
  block_yields w (Compat.legacy_block h action) false pre.
Proof.
  intros (o & c & -> & Ha & _ & Hi).
  destruct (for_in_yield_breaks c pre e Hi) as (t & Hr & Ht).
  eexists. split.
  - unfold Compat.legacy_block.
    unfold bind at 1. unfold hasattr, try_except at 1, bind at 1, getattr.
    rewrite Ha. unfold ret at 1.
    unfold try_except, bind at 1. rewrite Ha.
    unfold bind at 1. rewrite Hr. unfold ret. reflexivity.
  - trace_yields Ht.
Qed.

(** *** The blocks of [xplane_anim_compat_bak.py] *)

Lemma backup_legacy_flat action cs :
  flat_at h w action cs ->
  block_yields w (CompatBak.legacy_block h action) true cs.
Proof.
  intros (o & c & -> & Ha & Hc).
  destruct cs as [|x cs].
  - destruct Hc as [_ Ht]. eexists. unfold CompatBak.legacy_block.
    run_unfold. rewrite !Ha, Ht. split; reflexivity.
  - destruct (for_in_yield_all c _ Hc) as (t & Hr & Hy).
    destruct Hc as [_ Ht].
    eexists. split.
    + unfold CompatBak.legacy_block.
      unfold bind at 1. unfold hasattr, try_except at 1, bind at 1, getattr.
      rewrite Ha. unfold ret at 1.
      unfold try_except, bind at 1. rewrite Ha.
      unfold bind at 1. unfold bind at 1. unfold truthy at 1. rewrite Ht.
      unfold bind at 1. rewrite Ha. rewrite Hr. unfold ret. reflexivity.
    + trace_yields Hy.
Qed.

Lemma backup_legacy_lacks o :
  lacks h w (VObj o) "fcurves" ->
  block_yields w (CompatBak.legacy_block h (VObj o)) false [].
Proof.
  simpl. intros Ha. eexists. unfold CompatBak.legacy_block. run_unfold.
  rewrite Ha. split; reflexivity.
Qed.

Lemma backup_legacy_breaks action pre e :
  flat_breaks h w action pre e ->
  block_yields w (CompatBak.legacy_block h action) false pre.
Proof.
  intros (o & c & -> & Ha & Htr & Hi).
  destruct (for_in_yield_breaks c pre e Hi) as (t & Hr & Ht).
  eexists. split.
  - unfold CompatBak.legacy_block.
    unfold bind at 1. unfold hasattr, try_except at 1, bind at 1, getattr.
    rewrite Ha. unfold ret at 1.
    unfold try_except, bind at 1. rewrite Ha.
    unfold bind at 1. unfold bind at 1. unfold truthy at 1. rewrite Htr.
    unfold bind at 1. rewrite Ha. rewrite Hr. unfold ret. reflexivity.
  - trace_yields Ht.
Qed.

Lemma walk_slot_yields f action slot cs :
  h_get_channelbag h = Some f ->
  (exists cb, f w action slot = (Ok cb, w) /\ resolved_bag_has h w cb cs) ->
  yields_exactly w (CompatBak.walk_slot h action slot) cs.
Proof.
  intros Hf (cb & Hcall & Hb).
  unfold CompatBak.walk_slot, call_get_channelbag. rewrite Hf.
  destruct cb as [|b]; simpl in Hb.
  - subst cs. eexists. run_unfold. rewrite Hcall. split; reflexivity.
  - destruct Hb as [(Ht & ->) | (Ht & [(-> & Ha) | (c & Ha & Hc)])].
    + eexists. run_unfold. rewrite Hcall, Ht. split; reflexivity.
    + eexists. run_unfold. rewrite Hcall, Ht.
      destruct Ha as [-> | ->]; split; reflexivity.
    + destruct cs as [|x cs].
      * destruct Hc as [_ Hct]. eexists. run_unfold.
        rewrite Hcall, Ht, Ha, Hct. split; reflexivity.
      * destruct (for_in_yield_all c _ Hc) as (t & Hr & Hy).
        destruct Hc as [_ Hct].
        eexists. split.
        -- unfold bind at 1. rewrite Hcall.
           unfold bind at 1. unfold truthy at 1. rewrite Ht.
           unfold bind at 1.
           unfold getattr_default, try_except at 1, getattr at 1.
           rewrite Ha.
           unfold bind at 1. unfold truthy at 1. rewrite Hct.
           unfold bind at 1. unfold getattr at 1. rewrite Ha.
           rewrite Hr. reflexivity.
        -- trace_yields Hy.
Qed.

Lemma backup_slotted_block action bs :
  slotted_at h w action bs ->
  block_yields w (CompatBak.slotted_block h action) true (List.concat bs).
Proof.
  intros (f & o & c & slots & Hu & Hf & -> & Ha & Hc & Hne & HF).
  assert (HF' : Forall2 (fun slot cs =>
              yields_exactly w (CompatBak.walk_slot h (VObj o) slot) cs)
            slots bs).
  { eapply Forall2_impl; [|exact HF]. intros slot cs Hs.
    exact (walk_slot_yields f (VObj o) slot cs Hf Hs). }
  destruct (for_in_yields h w c _ slots bs Hc HF') as (t & Hr & Hy).
  assert (Ht : h_truth h w c = true).
  { destruct Hc as [_ Ht]. destruct slots; [congruence|exact Ht]. }
  eexists. split.
  - unfold CompatBak.slotted_block, try_except at 1.
    unfold bind at 1. unfold import_anim_utils at 1.
    unfold bind at 1, emit at 1. rewrite Hu. unfold ret at 1.
    unfold bind at 1.
    unfold getattr_default, try_except at 1, getattr at 1. rewrite Ha.
    unfold bind at 1. unfold truthy at 1. rewrite Ht.
    unfold bind at 1. rewrite Hr. unfold ret. reflexivity.
  - trace_yields Hy.
Qed.

Lemma backup_slotted_skipped o :
  not_slotted h w (VObj o) ->
  block_yields w (CompatBak.slotted_block h (VObj o)) false [].
Proof.
  intros Hn. unfold block_yields, CompatBak.slotted_block.
  destruct (h_anim_utils h) eqn:Hu.
  2:{ eexists. run_unfold. rewrite Hu. split; reflexivity. }
  assert (Hempty : items_at h w (VObj o) "slots" [] ->
    exists t,
      try_except
        (import_anim_utils h;;
         slots <- getattr_default h (VObj o) "slots" VNone;;
         t0 <- truthy h slots;;
         (if t0
          then for_in h slots (CompatBak.walk_slot h (VObj o));; ret true
          else ret false)) (fun _ : exn => ret false) w = (Ok false, w, t)
      /\ yields t = []).
  { simpl. intros [(_ & Ha) | (c & Ha & (_ & Ht))].
    - eexists. run_unfold. rewrite Hu.
      destruct Ha as [-> | ->]; split; reflexivity.
    - eexists. run_unfold. rewrite Hu, Ha, Ht. split; reflexivity. }
  destruct Hn as [Hn | [Hn | (Hg & xs & Hx)]];
    [congruence | exact (Hempty Hn) |].
  destruct xs as [|x xs]; [exact (Hempty Hx)|].
  simpl in Hx. destruct Hx as [(Hx & _) | (c & Ha & (Hi & Ht))];
    [discriminate|].
  eexists. unfold for_in, CompatBak.walk_slot, call_get_channelbag.
  rewrite Hg. run_unfold. rewrite Hu, Ha, Ht, Hi. cbn [run_items].
  run_unfold. split; reflexivity.
Qed.

(** *** The whole generator *)

Lemma bind_block (m : M W bool) (k : bool -> M W unit) b ys zs :
  block_yields w m b ys ->
  yields_exactly w (k b) zs ->
  yields_exactly w (bind m k) (ys ++ zs).
Proof.
  intros (t & Hm & Ht) (t' & Hk & Ht').
  exists (t ++ t'). unfold bind. rewrite Hm, Hk.
  split; [reflexivity|]. rewrite yields_app, Ht, Ht'. reflexivity.
Qed.

Lemma ret_yields_nothing : yields_exactly w (ret tt) [].
Proof. exists []. split; reflexivity. Qed.

(** Each module yields the curves of the shape its order selects. *)
Lemma iter_yields_shape v action s :
  presents_in h w v action s ->
  yields_exactly w (iter_action_fcurves_of v h action) (curves s).
Proof.
  destruct v; simpl.
  - (* xplane_anim_compat.py *)
    destruct s as [bs|cs|ls]; simpl; [tauto| |].
    + intros Hf. pose proof Hf as (o & c & -> & _).
      unfold Compat.iter_action_fcurves; cbn [is_none].
      rewrite <- (app_nil_r cs).
      eapply bind_block; [apply current_legacy_flat; exact Hf|].
      apply ret_yields_nothing.
    + intros (Hl & Hls). destruct action as [|o].
      * destruct Hls as (layers & Hi & HF). simpl in Hi. subst layers.
        inversion HF; subst. apply ret_yields_nothing.
      * unfold Compat.iter_action_fcurves; cbn [is_none].
        change (List.concat (List.concat (List.concat ls)))
          with ([] ++ List.concat (List.concat (List.concat ls))).
        eapply bind_block; [apply current_legacy_lacks; exact Hl|].
        apply walk_layers_yields; exact Hls.
  - (* xplane_anim_compat_bak.py *)
    destruct s as [bs|cs|ls]; simpl.
    + intros Hs. pose proof Hs as (f & o & c & slots & _ & _ & -> & _).
      unfold CompatBak.iter_action_fcurves; cbn [is_none].
      rewrite <- (app_nil_r (List.concat bs)).
      eapply bind_block; [apply backup_slotted_block; exact Hs|].
      apply ret_yields_nothing.
    + intros (Hn & Hf). pose proof Hf as (o & c & -> & _).
      unfold CompatBak.iter_action_fcurves; cbn [is_none].
      change cs with ([] ++ cs).
      eapply bind_block; [apply backup_slotted_skipped; exact Hn|].
      rewrite <- (app_nil_r cs).
      eapply bind_block; [apply backup_legacy_flat; exact Hf|].
      apply ret_yields_nothing.
    + intros (Hn & Hl & Hls). destruct action as [|o].
      * destruct Hls as (layers & Hi & HF). simpl in Hi. subst layers.
        inversion HF; subst. apply ret_yields_nothing.
      * unfold CompatBak.iter_action_fcurves; cbn [is_none].
        change (List.concat (List.concat (List.concat ls)))
          with ([] ++ [] ++ List.concat (List.concat (List.concat ls))).
        eapply bind_block; [apply backup_slotted_skipped; exact Hn|].
        eapply bind_block; [apply backup_legacy_lacks; exact Hl|].
        apply walk_layers_yields; exact Hls.
Qed.

(** When the flat collection breaks off, both modules go on with the
    layers. *)
Lemma iter_falls_through v action pre e ls :
  slotted_aside h w v action ->
  flat_breaks h w action pre e ->
  layers_has h w action ls ->
  yields_exactly w (iter_action_fcurves_of v h action)
    (pre ++ List.concat (List.concat (List.concat ls))).
Proof.
  intros Hs Hb Hls. pose proof Hb as (o & c & -> & _).
  destruct v; simpl in *.
  - unfold Compat.iter_action_fcurves; cbn [is_none].
    eapply bind_block; [eapply current_legacy_breaks; exact Hb|].
    apply walk_layers_yields; exact Hls.
  - unfold CompatBak.iter_action_fcurves; cbn [is_none].
    change (pre ++ List.concat (List.concat (List.concat ls)))
      with ([] ++ pre ++ List.concat (List.concat (List.concat ls))).
    eapply bind_block; [apply backup_slotted_skipped; exact Hs|].
    eapply bind_block; [eapply backup_legacy_breaks; exact Hb|].
    apply walk_layers_yields; exact Hls.
Qed.

End Iteration.

(** Decides the shape relations on the hosts of the examples. *)
Ltac items_solve :=
  simpl;
  first
    [ reflexivity
    | solve [right; eexists; split; [reflexivity | split; reflexivity]]
    | solve [left; split;
             [reflexivity | (left; reflexivity) || (right; reflexivity)]] ].

Ltac has_solve :=
  repeat match goal with
    | |- Forall2 _ _ _ => constructor
    | |- layers_has _ _ _ _ => eexists; split
    | |- layer_has _ _ _ _ => eexists; split
    | |- strip_has _ _ _ _ => eexists; split
    | |- bag_has _ _ _ _ => unfold bag_has
    | |- items_at _ _ _ _ _ => items_solve
    end.

(** ** C4 *)

(** C4: where the walk reaches the layered shape (no flat collection on
    the Action and, in the backup module, no slotted shape before it),
    [iter_action_fcurves] of either module ends normally and yields the
    curves layer by layer, strip by strip, bag by bag, in the collections'
    order; a level whose collection is absent, [None] or empty adds
    nothing and raises nothing. *)
Theorem iter_action_fcurves_layered :
  forall (W : Type) (h : Host W) (w : W) (v : version) (action : value)
         (ls : list (list (list (list value)))),
    slotted_aside h w v action ->
    lacks h w action "fcurves" ->
    layers_has h w action ls ->
    yields_exactly w (iter_action_fcurves_of v h action)
      (List.concat (List.concat (List.concat ls))).
Proof.
  intros W h w v action ls Hs Hl Hls.
  apply (iter_yields_shape h w v action (Layered ls)).
  destruct v; simpl in *; auto.
Qed.

Lemma iter_action_fcurves_layered_witness :
  (slotted_aside layered_host tt Backup (VObj 1) /\
   lacks layered_host tt (VObj 1) "fcurves" /\
   layers_has layered_host tt (VObj 1) [[[[VObj 4]]]; [[[VObj 5]]]]) /\
  yields_exactly tt (CompatBak.iter_action_fcurves layered_host (VObj 1))
    [VObj 4; VObj 5] /\
  yields_exactly tt (Compat.iter_action_fcurves sparse_host (VObj 1))
    [VObj 7].
Proof.
  assert (H1 : slotted_aside layered_host tt Backup (VObj 1))
    by (left; reflexivity).
  assert (H2 : lacks layered_host tt (VObj 1) "fcurves") by reflexivity.
  assert (H3 : layers_has layered_host tt (VObj 1)
                 [[[[VObj 4]]]; [[[VObj 5]]]]) by has_solve.
  split; [auto|]. split.
  - exact (iter_action_fcurves_layered unit layered_host tt Backup (VObj 1)
             _ H1 H2 H3).
  - apply (iter_action_fcurves_layered unit sparse_host tt Current (VObj 1)
             [ []; []; []; [ [] ]; [ [ [] ] ]; [ [ [VObj 7] ] ] ]).
    + exact I.
    + reflexivity.
    + has_solve.
Defined.

(** ** C1 *)

(** C1, as the specification states it, fails for
    [xplane_anim_compat.py]: on a host that exposes the per-slot helper,
    with an Action whose one slot resolves to a bag holding curve 6, the
    specification's order selects the slotted shape, but the current
    module's generator has no slotted branch and does not yield curve
    6. *)
Lemma iter_action_fcurves_current_skips_slots :
  presents slotted_host tt (VObj 1) (Slotted [[VObj 6]]) /\
  ~ yields_exactly tt (Compat.iter_action_fcurves slotted_host (VObj 1))
      (curves (Slotted [[VObj 6]])).
Proof.
  split.
  - exists resolve_slot3_helper, 1, 2, [VObj 3].
    repeat split; try reflexivity; try discriminate.
    constructor; [|constructor].
    exists (VObj 4). split; [reflexivity|].
    right. split; [reflexivity|]. items_solve.
  - intros (t & Hrun & Hy). vm_compute in Hrun.
    injection Hrun as <-. discriminate Hy.
Qed.

(** C1 (amended): [iter_action_fcurves] of
    [xplane_anim_compat_bak.py] follows the specification's order
    (slotted when the helper is there and the Action has slots, else the
    flat collection, else the layers); [iter_action_fcurves] of
    [xplane_anim_compat.py] has no slotted branch and follows the order
    flat, else layers.  In each case the run ends normally and yields
    exactly the curves of the selected shape, in its order. *)
Theorem iter_action_fcurves_order :
  forall (W : Type) (h : Host W) (w : W) (v : version) (action : value)
         (s : shape),
    presents_in h w v action s ->
    yields_exactly w (iter_action_fcurves_of v h action) (curves s).
Proof. intros. apply iter_yields_shape. assumption. Qed.

Lemma iter_action_fcurves_order_witness :
  presents_in slotted_host tt Backup (VObj 1) (Slotted [[VObj 6]]) /\
  yields_exactly tt (CompatBak.iter_action_fcurves slotted_host (VObj 1))
    [VObj 6].
Proof.
  assert (H : presents_in slotted_host tt Backup (VObj 1)
                (Slotted [[VObj 6]])).
  { exists resolve_slot3_helper, 1, 2, [VObj 3].
    repeat split; try reflexivity; try discriminate.
    constructor; [|constructor].
    exists (VObj 4). split; [reflexivity|].
    right. split; [reflexivity|]. items_solve. }
  split; [exact H|].
  exact (iter_action_fcurves_order unit slotted_host tt Backup (VObj 1)
           (Slotted [[VObj 6]]) H).
Defined.

(** ** C2 *)

(** C2, as stated, fails in both modules: where the Action's flat
    collection breaks off after curve 10 and the Action also has a layer
    holding curve 20, one call yields curve 10 from the flat shape and
    then curve 20 from the layered shape. *)
Lemma iter_action_fcurves_merges_after_failure :
  flat_breaks broken_flat_host tt (VObj 1) [VObj 10] RuntimeError /\
  layers_has broken_flat_host tt (VObj 1) [[[[VObj 20]]]] /\
  yields (trace (Compat.iter_action_fcurves broken_flat_host (VObj 1) tt))
  = [VObj 10; VObj 20] /\
  yields (trace (CompatBak.iter_action_fcurves broken_flat_host (VObj 1) tt))
  = [VObj 10; VObj 20].
Proof.
  split; [|split; [|split]].
  - exists 1, 2. repeat split; reflexivity.
  - has_solve.
  - reflexivity.
  - reflexivity.
Qed.

(** C2 (amended): a call whose first matching shape enumerates without a
    host failure yields the curves of that one shape and nothing else,
    whatever the other shapes hold.  A flat collection that breaks off
    partway is not the end of the call: the curves yielded so far are
    kept, the failure is swallowed and the layered shape's curves
    follow. *)
Theorem iter_action_fcurves_one_shape :
  forall (W : Type) (h : Host W) (w : W) (v : version) (action : value),
    (forall s,
       presents_in h w v action s ->
       yields_exactly w (iter_action_fcurves_of v h action) (curves s)) /\
    (forall pre e ls,
       slotted_aside h w v action ->
       flat_breaks h w action pre e ->
       layers_has h w action ls ->
       yields_exactly w (iter_action_fcurves_of v h action)
         (pre ++ curves (Layered ls))).
Proof.
  intros W h w v action. split.
  - intros s Hs. apply iter_yields_shape. exact Hs.
  - intros pre e ls Hs Hb Hls. simpl.
    exact (iter_falls_through h w v action pre e ls Hs Hb Hls).
Qed.

Lemma iter_action_fcurves_one_shape_witness :
  (presents_in flat_and_layers_host tt Current (VObj 1)
     (Flat [VObj 8; VObj 9]) /\
   layers_has flat_and_layers_host tt (VObj 1) [[[[VObj 20]]]] /\
   yields_exactly tt
     (Compat.iter_action_fcurves flat_and_layers_host (VObj 1))
     [VObj 8; VObj 9]) /\
  (slotted_aside broken_flat_host tt Backup (VObj 1) /\
   flat_breaks broken_flat_host tt (VObj 1) [VObj 10] RuntimeError /\
   layers_has broken_flat_host tt (VObj 1) [[[[VObj 20]]]] /\
   yields_exactly tt
     (CompatBak.iter_action_fcurves broken_flat_host (VObj 1))
     [VObj 10; VObj 20]).
Proof.
  assert (H1 : presents_in flat_and_layers_host tt Current (VObj 1)
                 (Flat [VObj 8; VObj 9])).
  { exists 1, 2. repeat split; reflexivity. }
  assert (H2 : slotted_aside broken_flat_host tt Backup (VObj 1))
    by (left; reflexivity).
  assert (H3 : flat_breaks broken_flat_host tt (VObj 1) [VObj 10]
                 RuntimeError).
  { exists 1, 2. repeat split; reflexivity. }
  assert (H4 : layers_has broken_flat_host tt (VObj 1) [[[[VObj 20]]]])
    by has_solve.
  split.
  - split; [exact H1|]. split; [has_solve|].
    exact (proj1 (iter_action_fcurves_one_shape unit flat_and_layers_host tt
                    Current (VObj 1)) _ H1).
  - split; [exact H2|]. split; [exact H3|]. split; [exact H4|].
    exact (proj2 (iter_action_fcurves_one_shape unit broken_flat_host tt
                    Backup (VObj 1)) _ _ _ H2 H3 H4).
Defined.

(** ** C7 *)

Section ModernContainer.
Context {W : Type} (h : Host W).

Lemma no_action_world anim_data w :
  world (no_action h anim_data w) = w.
Proof.
  destruct anim_data as [|o]; [reflexivity|].
  run_unfold. destruct (h_truth h w o); [|reflexivity].
  destruct (h_attr h w o "action") as [[|a]|e]; reflexivity.
Qed.

(** Whatever [get_action_channelbag] answered other than [None], the
    entry guard let the call through. *)
Lemma guard_passed v anim_data ensure w b w1 t :
  get_action_channelbag_of v h anim_data ensure w = (Ok (VObj b), w1, t) ->
  exists t0, no_action h anim_data w = (Ok false, w, t0).
Proof.
  intros Hrun. pose proof (no_action_world anim_data w) as Hw.
  destruct (no_action h anim_data w) as [[[g|e] w0] t0] eqn:Hg;
    unfold world in Hw; simpl in Hw; subst w0.
  - destruct g; [|eexists; reflexivity].
    destruct v; unfold get_action_channelbag_of,
      Compat.get_action_channelbag, CompatBak.get_action_channelbag in Hrun;
      unfold bind at 1 in Hrun; rewrite Hg in Hrun; discriminate.
  - destruct v; unfold get_action_channelbag_of,
      Compat.get_action_channelbag, CompatBak.get_action_channelbag in Hrun;
      unfold bind at 1 in Hrun; rewrite Hg in Hrun; discriminate.
Qed.

(** [xplane_anim_compat.py], lines 57-59: a truthy container without
    [groups] gives [None]; no group method is called. *)
Lemma current_ensure_action_group_modern anim_data name w b w1 t :
  Compat.get_action_channelbag h anim_data true w = (Ok (VObj b), w1, t) ->
  h_truth h w1 b = true ->
  lacks h w1 (VObj b) "groups" ->
  exists t',
    Compat.ensure_action_group h anim_data name w = (Ok VNone, w1, t') /\
    method_calls "get" t' = method_calls "get" t /\
    method_calls "new" t' = method_calls "new" t.
Proof.
  intros Hrun Ht Hl. simpl in Hl.
  destruct (guard_passed Current anim_data true w b w1 t Hrun) as (t0 & Hg).
  assert (Hp : forall m, method_calls m t0 = 0).
  { intros m. destruct anim_data as [|o]; [discriminate|].
    revert Hg. run_unfold. destruct (h_truth h w o); [|discriminate].
    destruct (h_attr h w o "action") as [[|a]|e];
      intros Hg; inversion Hg; reflexivity. }
  eexists. split.
  - unfold Compat.ensure_action_group. unfold bind at 1. rewrite Hg.
    unfold bind at 1. rewrite Hrun.
    unfold bind at 1. unfold truthy at 1. rewrite Ht. cbn [negb].
    unfold bind at 1. unfold hasattr, try_except, bind at 1, getattr.
    rewrite Hl. cbn [is_AttributeError]. unfold ret. reflexivity.
  - rewrite ?method_calls_app, ?Hp. simpl.
    rewrite ?method_calls_app. simpl. split; lia.
Qed.

(** [xplane_anim_compat_bak.py], line 68: the same container makes the
    backup module read [container.groups] all the same, which raises. *)
Lemma backup_ensure_action_group_modern anim_data name w b w1 t :
  CompatBak.get_action_channelbag h anim_data true w
  = (Ok (VObj b), w1, t) ->
  h_truth h w1 b = true ->
  lacks h w1 (VObj b) "groups" ->
  result (CompatBak.ensure_action_group h anim_data name w)
  = Raise AttributeError.
Proof.
  intros Hrun Ht Hl. simpl in Hl.
  destruct (guard_passed Backup anim_data true w b w1 t Hrun) as (t0 & Hg).
  unfold CompatBak.ensure_action_group. unfold bind at 1. rewrite Hg.
  unfold bind at 1. rewrite Hrun.
  unfold bind at 1. unfold truthy at 1. rewrite Ht. cbn [negb].
  unfold bind at 1. unfold hasattr, try_except, bind at 1, getattr.
  rewrite Hl. cbn [is_AttributeError]. unfold ret at 1.
  unfold bind at 1. rewrite Hl. reflexivity.
Qed.

End ModernContainer.

(** C7: on the modern host, whose AnimData (0) resolves to the
    bag 4 without a [groups] collection, [ensure_action_group] of
    [xplane_anim_compat.py] answers [None] and calls no group method,
    while [ensure_action_group] of
    [xplane_anim_compat_bak.py] raises [AttributeError]: after
    [hasattr(container, "groups")] was false, its line 68 reads
    [container.groups]. *)
Theorem ensure_action_group_modern_bag :
  result (Compat.get_action_channelbag modern_host (VObj 0) true tt)
  = Ok (VObj 4) /\
  result (CompatBak.get_action_channelbag modern_host (VObj 0) true tt)
  = Ok (VObj 4) /\
  h_truth modern_host tt 4 = true /\
  lacks modern_host tt (VObj 4) "groups" /\
  Compat.ensure_action_group modern_host (VObj 0) "g" tt
  = (Ok VNone, tt,
     [EvTruth 0; EvGetattr 0 "action"; EvTruth 1;
      EvTruth 0; EvGetattr 0 "action"; EvTruth 1;
      EvGetattr 0 "action"; EvGetattr 1 "groups";
      EvImport "bpy_extras.anim_utils.action_ensure_channelbag_for_slot";
      EvGetattr 0 "action_slot";
      EvHelper "action_ensure_channelbag_for_slot" (VObj 1) (VObj 3)
        (Some true);
      EvTruth 4; EvGetattr 4 "groups"]) /\
  result (CompatBak.ensure_action_group modern_host (VObj 0) "g" tt)
  = Raise AttributeError.
Proof. repeat split; reflexivity. Qed.

(** ** C5 *)

(** C5, as stated, fails: a missing [action] attribute escapes
    [get_action_channelbag] as [AttributeError]; a host error of
    [groups.new] escapes [ensure_action_group]; a layer collection that
    cannot be iterated escapes [iter_action_fcurves].  So it is in both
    modules. *)
Lemma host_failures_escape :
  result (Compat.get_action_channelbag bare_host (VObj 0) false tt)
  = Raise AttributeError /\
  result (CompatBak.get_action_channelbag bare_host (VObj 0) false tt)
  = Raise AttributeError /\
  result (Compat.ensure_action_group readonly_host (VObj 0) "g" tt)
  = Raise RuntimeError /\
  result (CompatBak.ensure_action_group readonly_host (VObj 0) "g" tt)
  = Raise RuntimeError /\
  result (Compat.iter_action_fcurves broken_layers_host (VObj 1) tt)
  = Raise RuntimeError /\
  result (CompatBak.iter_action_fcurves broken_layers_host (VObj 1) tt)
  = Raise RuntimeError.
Proof. repeat split; reflexivity. Qed.

Section Guarded.
Context {W : Type} (h : Host W).

(** [try: ... except Exception: return x] never raises. *)
Lemma try_except_ret_total {A} (m : M W A) (x : A) w :
  ends_ok (try_except m (fun _ => ret x) w).
Proof.
  unfold ends_ok, try_except, result, ret.
  destruct (m w) as [[[a|e] w1] t]; eexists; reflexivity.
Qed.

Lemma hasattr_safe v name w :
  reads_safely h v name ->
  exists b t, hasattr h v name w = (Ok b, w, t).
Proof.
  destruct v as [|o]; simpl; intros Hs.
  - do 2 eexists; reflexivity.
  - run_unfold. destruct (h_attr h w o name) as [a|e] eqn:Ha.
    + do 2 eexists; reflexivity.
    + rewrite (Hs w e Ha). do 2 eexists; reflexivity.
Qed.

Lemma getattr_default_safe v name d w :
  reads_safely h v name ->
  exists a t, getattr_default h v name d w = (Ok a, w, t).
Proof.
  destruct v as [|o]; simpl; intros Hs.
  - do 2 eexists; reflexivity.
  - run_unfold. destruct (h_attr h w o name) as [a|e] eqn:Ha.
    + do 2 eexists; reflexivity.
    + rewrite (Hs w e Ha). do 2 eexists; reflexivity.
Qed.

Lemma bind_ends_ok {A B} (m : M W A) (k : A -> M W B) w a w1 t :
  m w = (Ok a, w1, t) -> ends_ok (k a w1) -> ends_ok (bind m k w).
Proof.
  intros Hm (b & Hk). unfold ends_ok, bind, result in *. rewrite Hm.
  destruct (k a w1) as [[r w2] t2]. simpl in *. eauto.
Qed.

Lemma ret_ends_ok {A} (a : A) (w : W) : ends_ok (ret a w).
Proof. exists a. reflexivity. Qed.

Lemma no_action_readable anim_data w :
  entry_readable h w anim_data ->
  exists g t, no_action h anim_data w = (Ok g, w, t).
Proof.
  destruct anim_data as [|o]; simpl.
  - intros _. do 2 eexists; reflexivity.
  - intros (a & Ha & _). run_unfold.
    destruct (h_truth h w o); [|do 2 eexists; reflexivity].
    rewrite Ha. destruct a; do 2 eexists; reflexivity.
Qed.

Lemma get_action_channelbag_guarded v anim_data ensure w :
  entry_readable h w anim_data ->
  ends_ok (get_action_channelbag_of v h anim_data ensure w).
Proof.
  intros He. destruct (no_action_readable anim_data w He) as (g & t & Hg).
  destruct v; simpl;
    unfold Compat.get_action_channelbag, CompatBak.get_action_channelbag;
    (eapply bind_ends_ok; [exact Hg|]);
    (destruct g; [apply ret_ends_ok|]);
    (destruct anim_data as [|o];
     [revert Hg; run_unfold; discriminate|]);
    destruct He as (a & Ha & Hs);
    (eapply bind_ends_ok; [unfold getattr; rewrite Ha; reflexivity|]).
  - destruct (hasattr_safe a "groups" w Hs) as (b & t1 & Hh).
    eapply bind_ends_ok; [exact Hh|].
    destruct b; [apply ret_ends_ok|apply try_except_ret_total].
  - match goal with
    | |- ends_ok (bind (try_except ?m ?hd) _ _) =>
        destruct (try_except m hd w) as [[r w1] t1] eqn:Hm;
        destruct (try_except_ret_total m None w) as (x & Hr)
    end.
    rewrite Hm in Hr. unfold result in Hr; simpl in Hr; subst r.
    eapply bind_ends_ok; [exact Hm|].
    destruct x as [cb|]; [apply ret_ends_ok|].
    destruct (hasattr_safe a "groups" w1 Hs) as (b & t2 & Hh).
    eapply bind_ends_ok; [exact Hh|].
    destruct b; apply ret_ends_ok.
Qed.

Lemma get_channelbag_for_anim_data_guarded anim_data w :
  reads_safely h anim_data "action" ->
  reads_safely h anim_data "action_slot" ->
  ends_ok (Compat.get_channelbag_for_anim_data h anim_data w).
Proof.
  intros Ha Hs. unfold Compat.get_channelbag_for_anim_data.
  destruct anim_data as [|o]; cbn [is_none]; [apply ret_ends_ok|].
  destruct (getattr_default_safe (VObj o) "action" VNone w Ha)
    as (a & t & Hga).
  eapply bind_ends_ok; [exact Hga|].
  destruct a as [|a]; cbn [is_none]; [apply ret_ends_ok|].
  destruct (try_except_ret_total (import_anim_utils h;; ret true) false w)
    as (imported & Hi).
  destruct (try_except (import_anim_utils h;; ret true)
              (fun _ => ret false) w) as [[r w1] t1] eqn:Hm.
  unfold result in Hi; simpl in Hi; subst r.
  assert (w1 = w) as ->.
  { revert Hm. run_unfold. destruct (h_anim_utils h); congruence. }
  eapply bind_ends_ok; [exact Hm|].
  destruct imported; cbn [negb]; [|apply ret_ends_ok].
  destruct (getattr_default_safe (VObj o) "action_slot" VNone w Hs)
    as (slot & t2 & Hgs).
  eapply bind_ends_ok; [exact Hgs|].
  destruct slot; cbn [is_none]; [apply ret_ends_ok|].
  apply try_except_ret_total.
Qed.

Lemma remove_fcurve_from_collection_total fcurves fcurve w :
  ends_ok (Compat.remove_fcurve_from_collection h fcurves fcurve w).
Proof.
  unfold Compat.remove_fcurve_from_collection, ends_ok.
  destruct (is_none fcurves || is_none fcurve); [eexists; reflexivity|].
  unfold try_except at 1.
  destruct ((call_method h fcurves "remove" (Keyword "fcurve")
               (AVal fcurve);; ret true) w) as [[[b|e] w1] t1];
    [eexists; reflexivity|].
  destruct e; try (eexists; reflexivity).
  destruct (try_except_ret_total
              (call_method h fcurves "remove" Positional (AVal fcurve);;
               ret true) false w1) as (b & Hb).
  unfold result in *.
  destruct (try_except _ _ w1) as [[r w2] t2]. simpl in *. subst r.
  eexists; reflexivity.
Qed.

End Guarded.

(** C5 (amended): [remove_fcurve_from_collection] never raises.
    [get_action_channelbag] (both modules) and
    [get_channelbag_for_anim_data] absorb every failure of importing or
    calling the slot helpers and of the reads made inside their [try]
    blocks; they end without raising whenever the reads made outside the
    blocks can be evaluated: [anim_data.action] is there (for
    [get_action_channelbag]) and the probes [hasattr]/[getattr] with a
    default fail only for a missing attribute. *)
Theorem guarded_failures_absorbed :
  forall (W : Type) (h : Host W) (w : W),
    (forall fcurves fcurve,
       ends_ok (Compat.remove_fcurve_from_collection h fcurves fcurve w) /\
       ends_ok (CompatBak.remove_fcurve_from_collection h fcurves fcurve w)) /\
    (forall anim_data,
       reads_safely h anim_data "action" ->
       reads_safely h anim_data "action_slot" ->
       ends_ok (Compat.get_channelbag_for_anim_data h anim_data w) /\
       ends_ok (CompatBak.get_channelbag_for_anim_data h anim_data w)) /\
    (forall v anim_data ensure,
       entry_readable h w anim_data ->
       ends_ok (get_action_channelbag_of v h anim_data ensure w)).
Proof.
  intros W h w. split; [|split].
  - intros fcurves fcurve.
    split; apply remove_fcurve_from_collection_total.
  - intros anim_data Ha Hs.
    split; apply get_channelbag_for_anim_data_guarded; assumption.
  - intros v anim_data ensure He.
    apply get_action_channelbag_guarded; assumption.
Qed.

Lemma guarded_failures_absorbed_witness :
  (reads_safely failing_helpers_host (VObj 0) "action" /\
   reads_safely failing_helpers_host (VObj 0) "action_slot" /\
   entry_readable failing_helpers_host tt (VObj 0)) /\
  ends_ok (Compat.remove_fcurve_from_collection failing_helpers_host
             (VObj 5) (VObj 6) tt) /\
  ends_ok (Compat.get_channelbag_for_anim_data failing_helpers_host
             (VObj 0) tt) /\
  ends_ok (Compat.get_action_channelbag failing_helpers_host
             (VObj 0) true tt) /\
  ends_ok (CompatBak.get_action_channelbag failing_helpers_host
             (VObj 0) true tt).
Proof.
  assert (H1 : reads_safely failing_helpers_host (VObj 0) "action")
    by (intros w e H; vm_compute in H; congruence).
  assert (H2 : reads_safely failing_helpers_host (VObj 0) "action_slot")
    by (intros w e H; vm_compute in H; congruence).
  assert (H3 : entry_readable failing_helpers_host tt (VObj 0)).
  { exists (VObj 1). split; [reflexivity|].
    intros w e H; vm_compute in H; congruence. }
  pose proof (guarded_failures_absorbed unit failing_helpers_host tt)
    as (Hr & Hc & Hg).
  split; [auto|]. split; [exact (proj1 (Hr (VObj 5) (VObj 6)))|].
  split; [exact (proj1 (Hc (VObj 0) H1 H2))|].
  split; [exact (Hg Current (VObj 0) true H3)
         |exact (Hg Backup (VObj 0) true H3)].
Defined.

(** ** C3 *)

(** C3, as stated, fails in each module.  On the slotted host (no active
    slot, first slot 3 resolving to bag 4) the specification's probe
    answers bag 4, but [get_action_channelbag] of [xplane_anim_compat.py]
    hands the missing active slot to the helper and answers [None]: it
    has no fallback to the first slot.  On the mixed host (an Action with
    both [groups] and an active slot) the specification's probe answers
    the Action, legacy first, but [get_action_channelbag] of
    [xplane_anim_compat_bak.py] answers bag 4: it probes the slotted
    shape first. *)
Lemma get_action_channelbag_departs_from_spec :
  result (spec_resolve_channel_bag slotted_host (VObj 0) false tt)
  = Ok (VObj 4) /\
  result (Compat.get_action_channelbag slotted_host (VObj 0) false tt)
  = Ok VNone /\
  result (spec_resolve_channel_bag mixed_host (VObj 0) false tt)
  = Ok (VObj 1) /\
  result (CompatBak.get_action_channelbag mixed_host (VObj 0) false tt)
  = Ok (VObj 4).
Proof. repeat split; reflexivity. Qed.

Section Probes.
Context {W : Type} (h : Host W) (w : W) (ad a : obj) (ensure : bool).
Hypothesis Hentered : entered h w ad a.

Ltac enter :=
  destruct Hentered as (Htad & Hact & Hta);
  unfold Compat.get_action_channelbag, CompatBak.get_action_channelbag,
    CompatBak.slot_or_first_getattr;
  run_unfold;
  repeat (progress (rewrite ?Htad, ?Hact, ?Hta; cbv beta iota)).

(** [xplane_anim_compat.py]: the legacy probe comes first and touches
    no helper. *)
Lemma current_legacy_first g :
  h_attr h w a "groups" = Ok g ->
  Compat.get_action_channelbag h (VObj ad) ensure w
  = (Ok (VObj a), w,
     [EvTruth ad; EvGetattr ad "action"; EvTruth a;
      EvGetattr ad "action"; EvGetattr a "groups"]).
Proof. intros Hg. enter. rewrite Hg. reflexivity. Qed.

(** [xplane_anim_compat.py]: then the slotted probe, with the active
    slot as it is read (be it [None]); the Action's [slots] are never
    read. *)
Lemma current_slotted_active_only f slot :
  h_attr h w a "groups" = Raise AttributeError ->
  h_anim_utils h = true ->
  h_ensure_channelbag h = Some f ->
  h_attr h w ad "action_slot" = Ok slot ->
  Compat.get_action_channelbag h (VObj ad) ensure w
  = (or_none (fst (f w (VObj a) slot ensure)),
     snd (f w (VObj a) slot ensure),
     [EvTruth ad; EvGetattr ad "action"; EvTruth a;
      EvGetattr ad "action"; EvGetattr a "groups";
      EvImport "bpy_extras.anim_utils.action_ensure_channelbag_for_slot";
      EvGetattr ad "action_slot";
      EvHelper "action_ensure_channelbag_for_slot" (VObj a) slot
        (Some ensure)]).
Proof.
  intros Hg Hu Hf Hs. enter. rewrite Hg, Hu, Hf, Hs. cbv beta iota.
  destruct (f w (VObj a) slot ensure) as [[cb|e] w']; reflexivity.
Qed.

(** [xplane_anim_compat.py]: otherwise [None]. *)
Lemma current_otherwise_none :
  h_attr h w a "groups" = Raise AttributeError ->
  h_anim_utils h = false \/ h_ensure_channelbag h = None \/
  (exists e, h_attr h w ad "action_slot" = Raise e) ->
  result (Compat.get_action_channelbag h (VObj ad) ensure w) = Ok VNone /\
  world (Compat.get_action_channelbag h (VObj ad) ensure w) = w /\
  helper_calls (trace (Compat.get_action_channelbag h (VObj ad) ensure w))
  = 0.
Proof.
  intros Hg Hno. unfold result, world, trace. enter. rewrite Hg.
  cbv beta iota.
  destruct Hno as [Hu | [Hf | (e & Hs)]];
    destruct (h_anim_utils h); try discriminate;
    destruct (h_ensure_channelbag h); try discriminate;
    rewrite ?Hs; cbv beta iota; repeat split; reflexivity.
Qed.

(** [xplane_anim_compat_bak.py]: the slotted probe comes first, even
    where the Action exposes [groups]. *)
Lemma backup_slotted_first f s cb w' :
  h_anim_utils h = true ->
  h_attr h w ad "action_slot" = Ok (VObj s) ->
  h_ensure_channelbag h = Some f ->
  f w (VObj a) (VObj s) ensure = (Ok cb, w') ->
  result (CompatBak.get_action_channelbag h (VObj ad) ensure w) = Ok cb /\
  world (CompatBak.get_action_channelbag h (VObj ad) ensure w) = w'.
Proof.
  intros Hu Hs Hf Hcall. unfold result, world. enter.
  rewrite Hu, Hs, Hf. cbv beta iota. rewrite Hcall.
  split; reflexivity.
Qed.

(** [xplane_anim_compat_bak.py]: without an active slot, the first
    slot of the Action is resolved. *)
Lemma backup_first_slot f c s cb w' :
  h_anim_utils h = true ->
  no_active_slot h w ad ->
  h_attr h w a "slots" = Ok (VObj c) ->
  h_truth h w c = true ->
  h_item h w c 0 = Ok (VObj s) ->
  h_ensure_channelbag h = Some f ->
  f w (VObj a) (VObj s) ensure = (Ok cb, w') ->
  result (CompatBak.get_action_channelbag h (VObj ad) ensure w) = Ok cb /\
  world (CompatBak.get_action_channelbag h (VObj ad) ensure w) = w'.
Proof.
  intros Hu Hs Hsl Htc Hi Hf Hcall. unfold result, world. enter.
  rewrite Hu.
  destruct Hs as [-> | ->]; cbv beta iota;
    repeat (progress (rewrite ?Hsl, ?Htc, ?Hi, ?Hf, ?Hcall;
                      cbv beta iota));
    split; reflexivity.
Qed.

(** [xplane_anim_compat_bak.py]: where creation is not supported (no
    ensure helper), the plain helper resolves the slot. *)
Lemma backup_without_ensure_helper f s cb w' :
  h_anim_utils h = true ->
  h_attr h w ad "action_slot" = Ok (VObj s) ->
  h_ensure_channelbag h = None ->
  h_get_channelbag h = Some f ->
  f w (VObj a) (VObj s) = (Ok cb, w') ->
  result (CompatBak.get_action_channelbag h (VObj ad) ensure w) = Ok cb /\
  world (CompatBak.get_action_channelbag h (VObj ad) ensure w) = w'.
Proof.
  intros Hu Hs He Hf Hcall. unfold result, world. enter.
  rewrite Hu, Hs, He, Hf. cbv beta iota. rewrite Hcall.
  split; reflexivity.
Qed.

(** [xplane_anim_compat_bak.py]: the legacy probe is the fallback. *)
Lemma backup_legacy_fallback :
  h_anim_utils h = false \/
  (no_active_slot h w ad /\ items_at h w (VObj a) "slots" []) ->
  result (CompatBak.get_action_channelbag h (VObj ad) ensure w)
  = match h_attr h w a "groups" with
    | Ok _ => Ok (VObj a)
    | Raise AttributeError => Ok VNone
    | Raise e => Raise e
    end /\
  world (CompatBak.get_action_channelbag h (VObj ad) ensure w) = w.
Proof.
  intros Hno. unfold result, world. enter.
  destruct Hno as [Hu | (Hs & Hsl)].
  - rewrite Hu. destruct (h_attr h w a "groups") as [g|[]];
      split; reflexivity.
  - destruct (h_anim_utils h).
    + simpl in Hsl.
      destruct Hs as [-> | ->]; cbv beta iota;
        destruct Hsl as [(_ & [-> | ->]) | (c & -> & (_ & ->))];
        cbv beta iota;
        destruct (h_attr h w a "groups") as [g|[]]; split; reflexivity.
    + destruct (h_attr h w a "groups") as [g|[]]; split; reflexivity.
Qed.

(** [xplane_anim_compat_bak.py]: the whole slotted probe.  For the
    active slot, or the first slot when none is active, the ensure helper
    answers; the plain helper answers where the ensure helper is missing
    or raises; the legacy probe answers where both fail. *)
Lemma backup_slotted_outcome s :
  h_anim_utils h = true ->
  chosen_slot h w ad a s ->
  outcome (CompatBak.get_action_channelbag h (VObj ad) ensure w)
  = backup_slot_outcome h w a s ensure.
Proof.
  intros Hu Hslot.
  unfold outcome, result, world, backup_slot_outcome, plain_then_legacy,
    legacy_answer.
  enter. rewrite Hu. cbv beta iota.
  destruct Hslot as [Hs | ([Hs | Hs] & c & Hsl & Htc & Hi)];
    repeat (progress (rewrite ?Hs, ?Hsl, ?Htc, ?Hi; cbv beta iota));
    (destruct (h_ensure_channelbag h) as [f|];
     [destruct (f w (VObj a) (VObj s) ensure) as [[cb|e] w1]|];
     cbv beta iota; try reflexivity;
     (destruct (h_get_channelbag h) as [g|];
      [match goal with
       | |- context [g ?w' (VObj a) (VObj s)] =>
           destruct (g w' (VObj a) (VObj s)) as [[cb'|e'] w2]
       end|];
      cbv beta iota; try reflexivity;
      match goal with
      | |- context [h_attr h ?w' a "groups"] =>
          destruct (h_attr h w' a "groups") as [x|[]]
      end; reflexivity)).
Qed.

End Probes.

(** C3 (amended): once the entry guard lets the call through,
    [get_action_channelbag] of [xplane_anim_compat.py] probes the legacy
    shape first (the Action exposes [groups]: return the Action, touch no
    helper), then the slotted shape through
    [action_ensure_channelbag_for_slot], called with the AnimData's
    active slot as it reads (no fallback to the first slot) and with
    [ensure] passed on, a failure of the helper giving [None]; otherwise
    [None].  [get_action_channelbag] of [xplane_anim_compat_bak.py]
    probes the slotted shape first: for the active slot, or the Action's
    first slot when none is active, it answers what the ensure helper
    answers, or what the plain helper answers where the ensure helper is
    missing or raises; the legacy shape is its fallback, where no slot
    is found, where the helper module is missing and where both helpers
    fail; otherwise [None]. *)
Theorem get_action_channelbag_probe_order :
  forall (W : Type) (h : Host W) (w : W) (ad a : obj) (ensure : bool),
    entered h w ad a ->
    (forall g,
       h_attr h w a "groups" = Ok g ->
       Compat.get_action_channelbag h (VObj ad) ensure w
       = (Ok (VObj a), w,
          [EvTruth ad; EvGetattr ad "action"; EvTruth a;
           EvGetattr ad "action"; EvGetattr a "groups"])) /\
    (forall f slot,
       h_attr h w a "groups" = Raise AttributeError ->
       h_anim_utils h = true ->
       h_ensure_channelbag h = Some f ->
       h_attr h w ad "action_slot" = Ok slot ->
       Compat.get_action_channelbag h (VObj ad) ensure w
       = (or_none (fst (f w (VObj a) slot ensure)),
          snd (f w (VObj a) slot ensure),
          [EvTruth ad; EvGetattr ad "action"; EvTruth a;
           EvGetattr ad "action"; EvGetattr a "groups";
           EvImport "bpy_extras.anim_utils.action_ensure_channelbag_for_slot";
           EvGetattr ad "action_slot";
           EvHelper "action_ensure_channelbag_for_slot" (VObj a) slot
             (Some ensure)])) /\
    (h_attr h w a "groups" = Raise AttributeError ->
     h_anim_utils h = false \/ h_ensure_channelbag h = None \/
     (exists e, h_attr h w ad "action_slot" = Raise e) ->
     result (Compat.get_action_channelbag h (VObj ad) ensure w) = Ok VNone /\
     world (Compat.get_action_channelbag h (VObj ad) ensure w) = w /\
     helper_calls (trace (Compat.get_action_channelbag h (VObj ad) ensure w))
     = 0) /\
    (forall f s cb w',
       h_anim_utils h = true ->
       h_attr h w ad "action_slot" = Ok (VObj s) ->
       h_ensure_channelbag h = Some f ->
       f w (VObj a) (VObj s) ensure = (Ok cb, w') ->
       result (CompatBak.get_action_channelbag h (VObj ad) ensure w) = Ok cb /\
       world (CompatBak.get_action_channelbag h (VObj ad) ensure w) = w') /\
    (forall f c s cb w',
       h_anim_utils h = true ->
       no_active_slot h w ad ->
       h_attr h w a "slots" = Ok (VObj c) ->
       h_truth h w c = true ->
       h_item h w c 0 = Ok (VObj s) ->
       h_ensure_channelbag h = Some f ->
       f w (VObj a) (VObj s) ensure = (Ok cb, w') ->
       result (CompatBak.get_action_channelbag h (VObj ad) ensure w) = Ok cb /\
       world (CompatBak.get_action_channelbag h (VObj ad) ensure w) = w') /\
    (forall f s cb w',
       h_anim_utils h = true ->
       h_attr h w ad "action_slot" = Ok (VObj s) ->
       h_ensure_channelbag h = None ->
       h_get_channelbag h = Some f ->
       f w (VObj a) (VObj s) = (Ok cb, w') ->
       result (CompatBak.get_action_channelbag h (VObj ad) ensure w) = Ok cb /\
       world (CompatBak.get_action_channelbag h (VObj ad) ensure w) = w') /\
    (h_anim_utils h = false \/
     (no_active_slot h w ad /\ items_at h w (VObj a) "slots" []) ->
     result (CompatBak.get_action_channelbag h (VObj ad) ensure w)
     = match h_attr h w a "groups" with
       | Ok _ => Ok (VObj a)
       | Raise AttributeError => Ok VNone
       | Raise e => Raise e
       end /\
     world (CompatBak.get_action_channelbag h (VObj ad) ensure w) = w) /\
    (forall s,
       h_anim_utils h = true ->
       chosen_slot h w ad a s ->
       outcome (CompatBak.get_action_channelbag h (VObj ad) ensure w)
       = backup_slot_outcome h w a s ensure).
Proof.
  intros W h w ad a ensure He.
  split; [exact (current_legacy_first h w ad a ensure He)|].
  split; [exact (current_slotted_active_only h w ad a ensure He)|].
  split; [exact (current_otherwise_none h w ad a ensure He)|].
  split; [exact (backup_slotted_first h w ad a ensure He)|].
  split; [exact (backup_first_slot h w ad a ensure He)|].
  split; [exact (backup_without_ensure_helper h w ad a ensure He)|].
  split; [exact (backup_legacy_fallback h w ad a ensure He)|].
  exact (backup_slotted_outcome h w ad a ensure He).
Qed.

(** ** Witnesses *)

Lemma get_action_channelbag_probe_order_witness :
  entered mixed_host tt 0 1 /\
  Compat.get_action_channelbag mixed_host (VObj 0) false tt
  = (Ok (VObj 1), tt,
     [EvTruth 0; EvGetattr 0 "action"; EvTruth 1;
      EvGetattr 0 "action"; EvGetattr 1 "groups"]) /\
  result (CompatBak.get_action_channelbag mixed_host (VObj 0) false tt)
  = Ok (VObj 4) /\
  (entered first_slot_host tt 0 1 /\
   chosen_slot first_slot_host tt 0 1 3 /\
   outcome (CompatBak.get_action_channelbag first_slot_host (VObj 0) false tt)
   = (Ok (VObj 4), tt)).
Proof.
  assert (He : entered mixed_host tt 0 1) by (repeat split; reflexivity).
  pose proof (get_action_channelbag_probe_order unit mixed_host tt 0 1 false He)
    as (H1 & _ & _ & H4 & _).
  assert (He' : entered first_slot_host tt 0 1)
    by (repeat split; reflexivity).
  assert (Hc : chosen_slot first_slot_host tt 0 1 3).
  { right. split; [right; reflexivity|].
    exists 2. repeat split; reflexivity. }
  pose proof (get_action_channelbag_probe_order unit first_slot_host tt 0 1
                false He') as (_ & _ & _ & _ & _ & _ & _ & H8).
  split; [exact He|]. split; [|split].
  - exact (H1 (VObj 2) eq_refl).
  - exact (proj1 (H4 resolve_slot3_ensure 3 (VObj 4) tt
                    eq_refl eq_refl eq_refl eq_refl)).
  - split; [exact He'|]. split; [exact Hc|].
    exact (H8 3 eq_refl Hc).
Defined.

Lemma remove_fcurve_from_collection_spec_witness :
  Compat.remove_fcurve_from_collection positional_host (VObj 5) (VObj 6) tt
  = (Ok true, tt,
     [EvMethod 5 "remove" (Keyword "fcurve") (AVal (VObj 6));
      EvMethod 5 "remove" Positional (AVal (VObj 6))]) /\
  Compat.remove_fcurve_from_collection positional_host VNone (VObj 6) tt
  = (Ok false, tt, []).
Proof.
  pose proof (remove_fcurve_from_collection_spec unit positional_host tt
                (VObj 5) (VObj 6)) as (_ & _ & _ & H).
  pose proof (remove_fcurve_from_collection_spec unit positional_host tt
                VNone (VObj 6)) as (_ & _ & H' & _).
  split.
  - exact (H 5 6 eq_refl eq_refl).
  - exact (H' (or_introl eq_refl)).
Defined.

Lemma resolvers_quiet_without_action_witness :
  no_anim idle_host tt (VObj 0) /\
  quiet VNone tt (Compat.get_action_channelbag idle_host (VObj 0) true tt) /\
  quiet VNone tt (Compat.ensure_action_group idle_host (VObj 0) "g" tt) /\
  quiet VNone tt (Compat.get_channelbag_for_anim_data idle_host (VObj 0) tt) /\
  quiet [] tt (Compat.get_fcurves_for_anim_data idle_host (VObj 0) tt) /\
  quiet VNone tt (CompatBak.get_action_channelbag idle_host (VObj 0) true tt) /\
  quiet VNone tt (CompatBak.ensure_action_group idle_host (VObj 0) "g" tt) /\
  quiet VNone tt
    (CompatBak.get_channelbag_for_anim_data idle_host (VObj 0) tt) /\
  quiet [] tt (CompatBak.get_fcurves_for_anim_data idle_host (VObj 0) tt).
Proof.
  assert (Hn : no_anim idle_host tt (VObj 0)).
  { right. exists 0. split; reflexivity. }
  split; [exact Hn|].
  exact (resolvers_quiet_without_action unit idle_host tt (VObj 0) true "g" Hn).
Defined.

Lemma find_group_fresh name g gs :
  find_group name gs = VNone ->
  find_group name (gs ++ [(name, g)]) = VObj g.
Proof.
  induction gs as [|[n g0] gs IH]; simpl.
  - intros _. rewrite String.eqb_refl. reflexivity.
  - destruct (String.eqb name n); [discriminate|exact IH].
Qed.

Lemma legacy_host_groups :
  LegacyGroups legacy_host 0 1 2 (fun w name => find_group name w).
Proof.
  constructor; try reflexivity.
  intros w name v w' Hf Hnew. simpl in Hnew. injection Hnew as <- <-.
  exists (100 + List.length w). split; [reflexivity|].
  apply find_group_fresh. exact Hf.
Qed.


(** * Further properties *)

(** ** What the functions never do *)

Section Confinement.
Context {W : Type} (h : Host W) (P : event -> bool).
Hypothesis Ppassive : forall e, is_passive e = true -> P e = true.

Lemma confined_ret {A} (a : A) : confined P (ret (W:=W) a).
Proof. intros w. split; reflexivity. Qed.

Lemma confined_raise {A} (e : exn) : confined P (raise (W:=W) (A:=A) e).
Proof. intros w. split; reflexivity. Qed.

Lemma confined_bind {A B} (m : M W A) (k : A -> M W B) :
  confined P m -> (forall a, confined P (k a)) -> confined P (bind m k).
Proof.
  intros Hm Hk w. unfold bind.
  destruct (Hm w) as [Hp Hw]. unfold trace, world in *.
  destruct (m w) as [[[a|e] w1] t1]; simpl in *; [|auto].
  destruct (Hk a w1) as [Hp' Hw']. unfold trace, world in *.
  destruct (k a w1) as [[r w2] t2]; simpl in *.
  rewrite !forallb_app, Hp, Hp'. split; [reflexivity|].
  intros [H1 H2]%andb_prop. rewrite (Hw' H2). auto.
Qed.

Lemma confined_try {A} (m : M W A) (hd : exn -> M W A) :
  confined P m -> (forall e, confined P (hd e)) ->
  confined P (try_except m hd).
Proof.
  intros Hm Hk w. unfold try_except.
  destruct (Hm w) as [Hp Hw]. unfold trace, world in *.
  destruct (m w) as [[[a|e] w1] t1]; simpl in *; [auto|].
  destruct (Hk e w1) as [Hp' Hw']. unfold trace, world in *.
  destruct (hd e w1) as [[r w2] t2]; simpl in *.
  rewrite !forallb_app, Hp, Hp'. split; [reflexivity|].
  intros [H1 H2]%andb_prop. rewrite (Hw' H2). auto.
Qed.

Lemma confined_emit ev : P ev = true -> confined P (emit (W:=W) ev).
Proof. intros Hev w. unfold emit; simpl. rewrite Hev. auto. Qed.

Lemma confined_truthy v : confined P (truthy h v).
Proof.
  destruct v as [|o]; intros w; simpl; [auto|].
  rewrite Ppassive by reflexivity. auto.
Qed.

Lemma confined_getattr v name : confined P (getattr h v name).
Proof.
  destruct v as [|o]; intros w; simpl; [auto|].
  rewrite Ppassive by reflexivity. auto.
Qed.

Lemma confined_hasattr v name : confined P (hasattr h v name).
Proof.
  unfold hasattr. apply confined_try.
  - apply confined_bind; [apply confined_getattr|].
    intros _. apply confined_ret.
  - intros e. destruct (is_AttributeError e);
      [apply confined_ret|apply confined_raise].
Qed.

Lemma confined_getattr_default v name d :
  confined P (getattr_default h v name d).
Proof.
  unfold getattr_default. apply confined_try; [apply confined_getattr|].
  intros e. destruct (is_AttributeError e);
    [apply confined_ret|apply confined_raise].
Qed.

Lemma confined_item v i : confined P (item h v i).
Proof.
  destruct v as [|o]; intros w; simpl; [auto|].
  rewrite Ppassive by reflexivity. auto.
Qed.

Lemma confined_run_items items (body : value -> M W unit) :
  (forall x, confined P (body x)) -> confined P (run_items items body).
Proof.
  intros Hb. induction items as [|x xs IH]; simpl.
  - apply confined_ret.
  - apply confined_bind; [apply Hb|]. intros _. exact IH.
Qed.

Lemma confined_finish fin : confined P (finish (W:=W) fin).
Proof. destruct fin; [apply confined_raise|apply confined_ret]. Qed.

Lemma confined_for_in v (body : value -> M W unit) :
  (forall x, confined P (body x)) -> confined P (for_in h v body).
Proof.
  intros Hb. destruct v as [|o]; [apply confined_raise|].
  intros w. unfold for_in.
  assert (Hc : confined P
                 (emit (EvIter o);;
                  run_items (fst (h_iter h w o)) body;;
                  finish (snd (h_iter h w o)))).
  { apply confined_bind;
      [apply confined_emit; apply Ppassive; reflexivity|].
    intros _. apply confined_bind; [apply confined_run_items; exact Hb|].
    intros _. apply confined_finish. }
  exact (Hc w).
Qed.

Lemma confined_to_list v : confined P (to_list h v).
Proof.
  destruct v as [|o]; [apply confined_raise|].
  intros w. unfold to_list.
  assert (Hc : confined P
                 (emit (W:=W) (EvIter o);;
                  finish (snd (h_iter h w o));;
                  ret (fst (h_iter h w o)))).
  { apply confined_bind;
      [apply confined_emit; apply Ppassive; reflexivity|].
    intros _. apply confined_bind; [apply confined_finish|].
    intros _. apply confined_ret. }
  exact (Hc w).
Qed.

Lemma confined_yield v : confined P (yield (W:=W) v).
Proof. apply confined_emit. apply Ppassive. reflexivity. Qed.

Lemma confined_no_action anim_data : confined P (no_action h anim_data).
Proof.
  unfold no_action. apply confined_bind; [apply confined_truthy|].
  intros b. destruct b; cbn [negb]; [|apply confined_ret].
  apply confined_bind; [apply confined_getattr|]. intros a.
  apply confined_bind; [apply confined_truthy|]. intros b'.
  apply confined_ret.
Qed.

Lemma confined_import_anim_utils :
  P (EvImport "bpy_extras.anim_utils") = true ->
  confined P (import_anim_utils h).
Proof.
  intros Hev w. unfold import_anim_utils, bind, emit.
  destruct (h_anim_utils h); simpl; rewrite Hev; split; auto; discriminate.
Qed.

Lemma confined_import_ensure_helper :
  P (EvImport "bpy_extras.anim_utils.action_ensure_channelbag_for_slot")
  = true ->
  confined P (import_ensure_helper h).
Proof.
  intros Hev w. unfold import_ensure_helper, bind, emit.
  destruct (h_anim_utils h); [destruct (h_ensure_channelbag h)|];
    simpl; rewrite Hev; split; auto; discriminate.
Qed.

Lemma confined_call_ensure
    (f : W -> value -> value -> bool -> res value * W) action slot ensure :
  P (EvHelper "action_ensure_channelbag_for_slot" action slot (Some ensure))
  = true ->
  confined P (call_ensure f action slot ensure).
Proof.
  intros Hev w. unfold call_ensure.
  destruct (f w action slot ensure) as [r w']; simpl. rewrite Hev.
  split; auto; discriminate.
Qed.

Lemma confined_call_get_channelbag action slot :
  P (EvHelper "action_get_channelbag_for_slot" action slot None) = true ->
  confined P (call_get_channelbag h action slot).
Proof.
  intros Hev w. unfold call_get_channelbag.
  destruct (h_get_channelbag h) as [f|]; [|split; reflexivity].
  destruct (f w action slot) as [r w']; simpl. rewrite Hev.
  split; auto; discriminate.
Qed.

Lemma confined_call_method v meth c a :
  (forall o, P (EvMethod o meth c a) = true) ->
  confined P (call_method h v meth c a).
Proof.
  intros Hev w. unfold call_method. destruct v as [|o]; [split; reflexivity|].
  destruct (h_method h w o meth c a) as [r w']; simpl. rewrite Hev.
  split; auto; discriminate.
Qed.

Lemma confined_walk_layers action : confined P (walk_layers h action).
Proof.
  assert (Hwalk : forall v name (body : value -> M W unit),
            (forall x, confined P (body x)) ->
            confined P
              (c <- getattr_default h v name VNone;;
               b <- truthy h c;;
               if negb b then ret tt else for_in h c body)).
  { intros v name body Hb.
    apply confined_bind; [apply confined_getattr_default|]. intros c.
    apply confined_bind; [apply confined_truthy|]. intros b.
    destruct b; cbn [negb]; [apply confined_for_in; exact Hb|].
    apply confined_ret. }
  apply Hwalk. intros layer. apply Hwalk. intros strip.
  apply Hwalk. intros cb. apply Hwalk. intros fc. apply confined_yield.
Qed.

End Confinement.

Section ConfinedFunctions.
Context {W : Type} (h : Host W) (P : event -> bool).
Hypothesis Ppassive : forall e, is_passive e = true -> P e = true.

Lemma confined_current_iter action :
  confined P (Compat.iter_action_fcurves h action).
Proof.
  unfold Compat.iter_action_fcurves.
  destruct (is_none action); [apply confined_ret|].
  apply confined_bind; auto.
  - unfold Compat.legacy_block.
    apply confined_bind; auto; [apply confined_hasattr; auto|].
    intros legacy. destruct legacy; [|apply confined_ret].
    apply confined_try; auto; [|intros _; apply confined_ret].
    apply confined_bind; auto; [apply confined_getattr; auto|].
    intros fcurves. apply confined_bind; auto.
    + apply confined_for_in; auto. intros fc. apply confined_yield; auto.
    + intros _. apply confined_ret.
  - intros returned. destruct returned; [apply confined_ret|].
    apply confined_walk_layers; auto.
Qed.

Hypothesis Pimport : P (EvImport "bpy_extras.anim_utils") = true.
Hypothesis Pget : forall name action slot,
  P (EvHelper name action slot None) = true.

Lemma confined_backup_iter action :
  confined P (CompatBak.iter_action_fcurves h action).
Proof.
  unfold CompatBak.iter_action_fcurves.
  destruct (is_none action); [apply confined_ret|].
  apply confined_bind; auto.
  - unfold CompatBak.slotted_block.
    apply confined_try; auto; [|intros _; apply confined_ret].
    apply confined_bind; auto; [apply confined_import_anim_utils; auto|].
    intros _. apply confined_bind; auto;
      [apply confined_getattr_default; auto|].
    intros slots. apply confined_bind; auto; [apply confined_truthy; auto|].
    intros t. destruct t; [|apply confined_ret].
    apply confined_bind; auto; [|intros _; apply confined_ret].
    apply confined_for_in; auto. intros slot. unfold CompatBak.walk_slot.
    apply confined_bind; auto; [apply confined_call_get_channelbag; auto|].
    intros cb. apply confined_bind; auto; [apply confined_truthy; auto|].
    intros t. destruct t; [|apply confined_ret].
    apply confined_bind; auto; [apply confined_getattr_default; auto|].
    intros fcurves. apply confined_bind; auto; [apply confined_truthy; auto|].
    intros t'. destruct t'; [|apply confined_ret].
    apply confined_bind; auto; [apply confined_getattr; auto|].
    intros fcurves'. apply confined_for_in; auto.
    intros fc. apply confined_yield; auto.
  - intros returned. destruct returned; [apply confined_ret|].
    apply confined_bind; auto.
    + unfold CompatBak.legacy_block.
      apply confined_bind; auto; [apply confined_hasattr; auto|].
      intros legacy. destruct legacy; [|apply confined_ret].
      apply confined_try; auto; [|intros _; apply confined_ret].
      apply confined_bind; auto; [apply confined_getattr; auto|].
      intros fcurves. apply confined_bind; auto; [apply confined_truthy; auto|].
      intros t. apply confined_bind; auto; [|intros _; apply confined_ret].
      destruct t; [|apply confined_ret].
      apply confined_bind; auto; [apply confined_getattr; auto|].
      intros fcurves'. apply confined_for_in; auto.
      intros fc. apply confined_yield; auto.
    + intros returned'. destruct returned'; [apply confined_ret|].
      apply confined_walk_layers; auto.
Qed.

Variable ensure : bool.
Hypothesis Pimport_ensure :
  P (EvImport "bpy_extras.anim_utils.action_ensure_channelbag_for_slot")
  = true.
Hypothesis Pensure : forall name action slot,
  P (EvHelper name action slot (Some ensure)) = true.

Lemma confined_get_action_channelbag v anim_data :
  confined P (get_action_channelbag_of v h anim_data ensure).
Proof.
  destruct v; simpl.
  - unfold Compat.get_action_channelbag.
    apply confined_bind; auto; [apply confined_no_action; auto|].
    intros g. destruct g; [apply confined_ret|].
    apply confined_bind; auto; [apply confined_getattr; auto|].
    intros action. apply confined_bind; auto; [apply confined_hasattr; auto|].
    intros legacy. destruct legacy; [apply confined_ret|].
    apply confined_try; auto; [|intros _; apply confined_ret].
    apply confined_bind; auto; [apply confined_import_ensure_helper; auto|].
    intros f. apply confined_bind; auto; [apply confined_getattr; auto|].
    intros slot. apply confined_call_ensure; auto.
  - unfold CompatBak.get_action_channelbag.
    apply confined_bind; auto; [apply confined_no_action; auto|].
    intros g. destruct g; [apply confined_ret|].
    apply confined_bind; auto; [apply confined_getattr; auto|].
    intros action. apply confined_bind; auto.
    + apply confined_try; auto; [|intros _; apply confined_ret].
      apply confined_bind; auto; [apply confined_import_anim_utils; auto|].
      intros _. apply confined_bind; auto;
        [apply confined_getattr_default; auto|].
      intros slot0. apply confined_bind; auto.
      * unfold CompatBak.slot_or_first_getattr.
        destruct (is_none slot0); [|apply confined_ret].
        apply confined_bind; auto; [apply confined_getattr_default; auto|].
        intros slots. apply confined_bind; auto; [apply confined_truthy; auto|].
        intros t. destruct t; [|apply confined_ret].
        apply confined_bind; auto; [apply confined_getattr; auto|].
        intros slots'. apply confined_item; auto.
      * intros slot. destruct (is_none slot); [apply confined_ret|].
        apply confined_bind; auto; [|intros cb; apply confined_ret].
        apply confined_try; auto.
        -- apply confined_bind; auto;
             [apply confined_import_ensure_helper; auto|].
           intros f. apply confined_call_ensure; auto.
        -- intros _. apply confined_call_get_channelbag; auto.
    + intros returned. destruct returned as [cb|]; [apply confined_ret|].
      apply confined_bind; auto; [apply confined_hasattr; auto|].
      intros legacy. destruct legacy; apply confined_ret.
Qed.

End ConfinedFunctions.

Lemma passive_is_lookup e : is_passive e = true -> is_lookup e = true.
Proof. destruct e; simpl; congruence. Qed.

Lemma passive_passes_flag ensure e :
  is_passive e = true -> passes_flag ensure e = true.
Proof. destruct e; simpl; congruence. Qed.

Lemma passive_groups_only name e :
  is_passive e = true -> groups_only name e = true.
Proof. destruct e; simpl; congruence. Qed.

Lemma passive_call_free t :
  forallb is_passive t = true -> forallb is_call_free t = true.
Proof.
  induction t as [|e t IH]; simpl; [reflexivity|].
  intros [He Ht]%andb_prop. rewrite (IH Ht).
  destruct e; simpl in *; congruence.
Qed.

Lemma lookup_call_free t :
  forallb is_lookup t = true -> helper_calls t = 0 ->
  forallb is_call_free t = true.
Proof.
  induction t as [|e t IH]; simpl; [reflexivity|].
  intros [He Ht]%andb_prop Hc.
  destruct e; simpl in *; try discriminate; auto.
Qed.

(** [iter_action_fcurves] of [xplane_anim_compat.py] only reads: for
    every host and every action, however the run ends, it imports
    nothing, calls no helper and no method, and leaves the world as it
    was. *)
Theorem current_iter_action_fcurves_only_reads :
  forall (W : Type) (h : Host W) (action : value) (w : W),
    forallb is_passive (trace (Compat.iter_action_fcurves h action w)) = true /\
    world (Compat.iter_action_fcurves h action w) = w.
Proof.
  intros W h action w.
  destruct (confined_current_iter h is_passive (fun e H => H) action w)
    as [Hp Hw].
  split; [exact Hp|]. apply Hw. apply passive_call_free. exact Hp.
Qed.

(** [iter_action_fcurves] of [xplane_anim_compat_bak.py] never creates:
    for every host and every action, however the run ends, it calls no
    method and never imports or calls the ensure helper; beyond reading
    and yielding it only imports [bpy_extras.anim_utils] and calls
    [action_get_channelbag_for_slot]; a run without a helper call leaves
    the world as it was. *)
Theorem backup_iter_action_fcurves_never_creates :
  forall (W : Type) (h : Host W) (action : value) (w : W),
    forallb is_lookup (trace (CompatBak.iter_action_fcurves h action w))
    = true /\
    (helper_calls (trace (CompatBak.iter_action_fcurves h action w)) = 0 ->
     world (CompatBak.iter_action_fcurves h action w) = w).
Proof.
  intros W h action w.
  destruct (confined_backup_iter h is_lookup passive_is_lookup eq_refl
              (fun _ _ _ => eq_refl) action w) as [Hp Hw].
  split; [exact Hp|]. intros Hc. apply Hw.
  apply lookup_call_free; assumption.
Qed.

(** [get_action_channelbag] of either module, for every host and every
    input and however the run ends, calls no method (so it creates no
    group), and whenever it calls the ensure helper it hands over the
    caller's [ensure] flag; a run without a helper call leaves the world
    as it was. *)
Theorem get_action_channelbag_passes_flag :
  forall (W : Type) (h : Host W) (v : version) (anim_data : value)
         (ensure : bool) (w : W),
    forallb (passes_flag ensure)
      (trace (get_action_channelbag_of v h anim_data ensure w)) = true /\
    (helper_calls (trace (get_action_channelbag_of v h anim_data ensure w))
     = 0 ->
     world (get_action_channelbag_of v h anim_data ensure w) = w).
Proof.
  intros W h v anim_data ensure w.
  destruct (confined_get_action_channelbag h (passes_flag ensure)
              (passive_passes_flag ensure) eq_refl (fun _ _ _ => eq_refl)
              ensure eq_refl (fun _ _ _ => Bool.eqb_reflx ensure)
              v anim_data w) as [Hp Hw].
  split; [exact Hp|]. intros Hc. apply Hw.
  revert Hp Hc.
  generalize (trace (get_action_channelbag_of v h anim_data ensure w)).
  intros t. induction t as [|e t IH]; simpl; [reflexivity|].
  intros [He Ht]%andb_prop Hc.
  destruct e; simpl in *; try discriminate; auto.
Qed.

Section ConfinedGroups.
Context {W : Type} (h : Host W) (group_name : string).

Lemma confined_ensure_action_group v anim_data :
  confined (groups_only group_name)
    (ensure_action_group_of v h anim_data group_name).
Proof.
  pose proof (passive_groups_only group_name) as Pp.
  assert (Hgac : confined (groups_only group_name)
                   (get_action_channelbag_of v h anim_data true)).
  { apply confined_get_action_channelbag; auto. }
  assert (Hget : forall groups,
            confined (groups_only group_name)
              (call_method h groups "get" Positional (AStr group_name))).
  { intros groups. apply confined_call_method; auto.
    intros o. simpl. apply String.eqb_refl. }
  assert (Hnew : forall groups c,
            confined (groups_only group_name)
              (call_method h groups "new" c (AStr group_name))).
  { intros groups c. apply confined_call_method; auto.
    intros o. simpl. apply String.eqb_refl. }
  assert (Hor : forall container c,
            confined (groups_only group_name)
              (groups <- getattr h container "groups";;
               found <- call_method h groups "get" Positional
                          (AStr group_name);;
               t <- truthy h found;;
               (if t
                then ret found
                else
                  groups' <- getattr h container "groups";;
                  call_method h groups' "new" c (AStr group_name)))).
  { intros container c.
    apply confined_bind; [apply confined_getattr; auto|].
    intros groups. apply confined_bind; [apply Hget|].
    intros found. apply confined_bind; [apply confined_truthy; auto|].
    intros t. destruct t; [apply confined_ret|].
    apply confined_bind; [apply confined_getattr; auto|].
    intros groups'. apply Hnew. }
  destruct v; simpl in *.
  - unfold Compat.ensure_action_group.
    apply confined_bind; [apply confined_no_action; auto|].
    intros g. destruct g; [apply confined_ret|].
    apply confined_bind; [exact Hgac|]. intros container.
    apply confined_bind; [apply confined_truthy; auto|].
    intros c. destruct c; cbn [negb]; [|apply confined_ret].
    apply confined_bind; [apply confined_hasattr; auto|].
    intros legacy. destruct legacy; [apply Hor|apply confined_ret].
  - unfold CompatBak.ensure_action_group.
    apply confined_bind; [apply confined_no_action; auto|].
    intros g. destruct g; [apply confined_ret|].
    apply confined_bind; [exact Hgac|]. intros container.
    apply confined_bind; [apply confined_truthy; auto|].
    intros c. destruct c; cbn [negb]; [|apply confined_ret].
    apply confined_bind; [apply confined_hasattr; auto|].
    intros legacy. destruct legacy; apply Hor.
Qed.

End ConfinedGroups.

(** [ensure_action_group] of either module, for every host and every
    input and however the run ends: whenever it calls the ensure helper
    it asks for creation ([ensure=True]); of the host's methods it calls
    only [get] and [new], and only with the given group name. *)
Theorem ensure_action_group_only_groups :
  forall (W : Type) (h : Host W) (v : version) (anim_data : value)
         (group_name : string) (w : W),
    forallb (groups_only group_name)
      (trace (ensure_action_group_of v h anim_data group_name w)) = true.
Proof.
  intros W h v anim_data group_name w.
  exact (proj1 (confined_ensure_action_group h group_name v anim_data w)).
Qed.

(** ** [get_channelbag_for_anim_data] and [get_fcurves_for_anim_data] *)

(** Rewrites with what is known of the host until the run is a value. *)
Ltac host_rewrite :=
  repeat (progress
    (repeat match goal with
       | H : h_attr _ _ _ _ = _ |- _ => rewrite H
       | H : h_truth _ _ _ = _ |- _ => rewrite H
       | H : h_iter _ _ _ = _ |- _ => rewrite H
       | H : h_item _ _ _ _ = _ |- _ => rewrite H
       | H : h_anim_utils _ = _ |- _ => rewrite H
       | H : h_get_channelbag _ = _ |- _ => rewrite H
       | H : h_ensure_channelbag _ = _ |- _ => rewrite H
       | H : _ = (_, _) |- _ => rewrite H
       end;
     cbv beta iota)).

(** [get_channelbag_for_anim_data] resolves the AnimData's active slot
    and no other.  With an active slot it makes one call of
    [action_get_channelbag_for_slot] and answers what the helper answers,
    [None] where the helper raises; without one it answers [None] and
    calls no helper, whether or not the Action has slots. *)
Theorem get_channelbag_for_anim_data_active_slot_only :
  forall (W : Type) (h : Host W) (w : W) (ad a : obj),
    h_attr h w ad "action" = Ok (VObj a) ->
    (forall s f,
       h_anim_utils h = true ->
       h_attr h w ad "action_slot" = Ok (VObj s) ->
       h_get_channelbag h = Some f ->
       Compat.get_channelbag_for_anim_data h (VObj ad) w
       = (or_none (fst (f w (VObj a) (VObj s))),
          snd (f w (VObj a) (VObj s)),
          [EvGetattr ad "action"; EvImport "bpy_extras.anim_utils";
           EvGetattr ad "action_slot";
           EvHelper "action_get_channelbag_for_slot" (VObj a) (VObj s)
             None])) /\
    (no_active_slot h w ad ->
     result (Compat.get_channelbag_for_anim_data h (VObj ad) w) = Ok VNone /\
     world (Compat.get_channelbag_for_anim_data h (VObj ad) w) = w /\
     helper_calls (trace (Compat.get_channelbag_for_anim_data h (VObj ad) w))
     = 0).
Proof.
  intros W h w ad a Ha. split.
  - intros s f Hu Hs Hf.
    unfold Compat.get_channelbag_for_anim_data. run_unfold. host_rewrite.
    destruct (f w (VObj a) (VObj s)) as [[cb|e] w1]; reflexivity.
  - intros Hs. unfold Compat.get_channelbag_for_anim_data.
    run_unfold. host_rewrite.
    destruct (h_anim_utils h); [|repeat split; reflexivity].
    destruct Hs as [Hs | Hs]; host_rewrite; repeat split; reflexivity.
Qed.

Lemma get_channelbag_for_anim_data_active_slot_only_witness :
  Compat.get_channelbag_for_anim_data modern_host (VObj 0) tt
  = (Ok (VObj 4), tt,
     [EvGetattr 0 "action"; EvImport "bpy_extras.anim_utils";
      EvGetattr 0 "action_slot";
      EvHelper "action_get_channelbag_for_slot" (VObj 1) (VObj 3) None]) /\
  result (Compat.get_channelbag_for_anim_data slotted_host (VObj 0) tt)
  = Ok VNone.
Proof.
  split.
  - exact (proj1 (get_channelbag_for_anim_data_active_slot_only unit
                    modern_host tt 0 1 eq_refl)
             3 resolve_slot3_helper eq_refl eq_refl eq_refl).
  - exact (proj1 (proj2 (get_channelbag_for_anim_data_active_slot_only unit
                           slotted_host tt 0 1 eq_refl)
                    (or_intror eq_refl))).
Defined.

Lemma get_fcurves_of_resolved_slot W (h : Host W) (w w1 : W)
    (ad a s b c : obj) (f : W -> value -> value -> res value * W)
    (cs : list value) :
  entered h w ad a ->
  h_anim_utils h = true ->
  h_get_channelbag h = Some f ->
  chosen_slot h w ad a s ->
  f w (VObj a) (VObj s) = (Ok (VObj b), w1) ->
  h_attr h w1 b "fcurves" = Ok (VObj c) ->
  h_iter h w1 c = (cs, None) ->
  result (Compat.get_fcurves_for_anim_data h (VObj ad) w) = Ok cs /\
  world (Compat.get_fcurves_for_anim_data h (VObj ad) w) = w1 /\
  helper_calls (trace (Compat.get_fcurves_for_anim_data h (VObj ad) w)) = 1.
Proof.
  intros (Htad & Hact & Hta) Hu Hf Hslot Hcall Hfc Hi.
  unfold Compat.get_fcurves_for_anim_data, Compat.slot_or_first, to_list.
  run_unfold.
  destruct Hslot as [Hs | ([Hs | Hs] & (sl & Hsl & Htsl & Hitem))];
    host_rewrite; repeat split; reflexivity.
Qed.

(** [get_fcurves_for_anim_data] lists the curves of the bag its slot
    resolves to: the active slot or, unlike
    [get_channelbag_for_anim_data], the Action's first slot when no slot
    is active.  The run is fixed event by event: after the entry guard it
    imports the helper module, reads the active slot, reads the Action's
    [slots] only when no slot is active, calls the helper once, reads the
    bag's [fcurves] and lists it.  The Action's legacy collection is
    neither read nor listed, whether the Action has one or not. *)
Theorem get_fcurves_for_anim_data_lists_bag :
  forall (W : Type) (h : Host W) (w w1 : W) (ad a s b c : obj)
         (f : W -> value -> value -> res value * W) (cs : list value),
    entered h w ad a ->
    h_anim_utils h = true ->
    h_get_channelbag h = Some f ->
    f w (VObj a) (VObj s) = (Ok (VObj b), w1) ->
    h_attr h w1 b "fcurves" = Ok (VObj c) ->
    h_iter h w1 c = (cs, None) ->
    (h_attr h w ad "action_slot" = Ok (VObj s) ->
     Compat.get_fcurves_for_anim_data h (VObj ad) w
     = (Ok cs, w1,
        [EvTruth ad; EvGetattr ad "action"; EvTruth a; EvGetattr ad "action";
         EvImport "bpy_extras.anim_utils"; EvGetattr ad "action_slot";
         EvHelper "action_get_channelbag_for_slot" (VObj a) (VObj s) None;
         EvGetattr b "fcurves"; EvIter c])) /\
    (forall sl,
       no_active_slot h w ad ->
       h_attr h w a "slots" = Ok (VObj sl) ->
       h_truth h w sl = true ->
       h_item h w sl 0 = Ok (VObj s) ->
       Compat.get_fcurves_for_anim_data h (VObj ad) w
       = (Ok cs, w1,
          [EvTruth ad; EvGetattr ad "action"; EvTruth a;
           EvGetattr ad "action";
           EvImport "bpy_extras.anim_utils"; EvGetattr ad "action_slot";
           EvGetattr a "slots"; EvGetattr a "slots"; EvTruth sl;
           EvGetattr a "slots"; EvItem sl 0;
           EvHelper "action_get_channelbag_for_slot" (VObj a) (VObj s) None;
           EvGetattr b "fcurves"; EvIter c])).
Proof.
  intros W h w w1 ad a s b c f cs (Htad & Hact & Hta) Hu Hf Hcall Hfc Hi.
  split.
  - intros Hs.
    unfold Compat.get_fcurves_for_anim_data, Compat.slot_or_first, to_list.
    run_unfold. host_rewrite. reflexivity.
  - intros sl Hs Hsl Htsl Hitem.
    unfold Compat.get_fcurves_for_anim_data, Compat.slot_or_first, to_list.
    run_unfold. destruct Hs as [Hs | Hs]; host_rewrite; reflexivity.
Qed.

Lemma get_fcurves_for_anim_data_lists_bag_witness :
  (entered first_slot_host tt 0 1 /\
   no_active_slot first_slot_host tt 0 /\
   flat_at first_slot_host tt (VObj 1) [VObj 9]) /\
  Compat.get_fcurves_for_anim_data first_slot_host (VObj 0) tt
  = (Ok [VObj 6], tt,
     [EvTruth 0; EvGetattr 0 "action"; EvTruth 1; EvGetattr 0 "action";
      EvImport "bpy_extras.anim_utils"; EvGetattr 0 "action_slot";
      EvGetattr 1 "slots"; EvGetattr 1 "slots"; EvTruth 2;
      EvGetattr 1 "slots"; EvItem 2 0;
      EvHelper "action_get_channelbag_for_slot" (VObj 1) (VObj 3) None;
      EvGetattr 4 "fcurves"; EvIter 5]) /\
  Compat.get_fcurves_for_anim_data modern_host (VObj 0) tt
  = (Ok [VObj 6], tt,
     [EvTruth 0; EvGetattr 0 "action"; EvTruth 1; EvGetattr 0 "action";
      EvImport "bpy_extras.anim_utils"; EvGetattr 0 "action_slot";
      EvHelper "action_get_channelbag_for_slot" (VObj 1) (VObj 3) None;
      EvGetattr 4 "fcurves"; EvIter 5]).
Proof.
  assert (He : entered first_slot_host tt 0 1) by (repeat split; reflexivity).
  assert (Hn : no_active_slot first_slot_host tt 0) by (right; reflexivity).
  assert (Hf : flat_at first_slot_host tt (VObj 1) [VObj 9]).
  { exists 1, 8. repeat split; reflexivity. }
  assert (He' : entered modern_host tt 0 1) by (repeat split; reflexivity).
  split; [auto|]. split.
  - exact (proj2 (get_fcurves_for_anim_data_lists_bag unit first_slot_host
                    tt tt 0 1 3 4 5 resolve_slot3_helper [VObj 6] He
                    eq_refl eq_refl eq_refl eq_refl eq_refl)
             2 Hn eq_refl eq_refl eq_refl).
  - exact (proj1 (get_fcurves_for_anim_data_lists_bag unit modern_host
                    tt tt 0 1 3 4 5 resolve_slot3_helper [VObj 6] He'
                    eq_refl eq_refl eq_refl eq_refl eq_refl)
             eq_refl).
Defined.

(** The two resolvers compose: where [get_channelbag_for_anim_data]
    finds a bag, [get_fcurves_for_anim_data] (its guard passed) returns
    the list of that bag's curves and leaves the same world. *)
Theorem get_fcurves_for_anim_data_of_channelbag :
  forall (W : Type) (h : Host W) (w w1 : W) (ad a b c : obj)
         (t : list event) (cs : list value),
    entered h w ad a ->
    Compat.get_channelbag_for_anim_data h (VObj ad) w
    = (Ok (VObj b), w1, t) ->
    h_attr h w1 b "fcurves" = Ok (VObj c) ->
    h_iter h w1 c = (cs, None) ->
    result (Compat.get_fcurves_for_anim_data h (VObj ad) w) = Ok cs /\
    world (Compat.get_fcurves_for_anim_data h (VObj ad) w) = w1.
Proof.
  intros W h w w1 ad a b c t cs He Hrun Hfc Hi.
  pose proof He as (Htad & Hact & Hta).
  revert Hrun. unfold Compat.get_channelbag_for_anim_data. run_unfold.
  rewrite Hact. cbv beta iota.
  destruct (h_anim_utils h) eqn:Hu; [|discriminate].
  destruct (h_attr h w ad "action_slot") as [[|s]|e] eqn:Hs;
    [discriminate| |destruct e; discriminate].
  destruct (h_get_channelbag h) as [f|] eqn:Hf; [|discriminate].
  destruct (f w (VObj a) (VObj s)) as [[cb|e] w1'] eqn:Hcall;
    [|discriminate].
  intros Hrun. injection Hrun as -> -> _.
  destruct (get_fcurves_of_resolved_slot W h w w1 ad a s b c f cs
              He Hu Hf (or_introl Hs) Hcall Hfc Hi) as (Hr & Hw & _).
  split; assumption.
Qed.

Lemma get_fcurves_for_anim_data_of_channelbag_witness :
  entered modern_host tt 0 1 /\
  result (Compat.get_channelbag_for_anim_data modern_host (VObj 0) tt)
  = Ok (VObj 4) /\
  result (Compat.get_fcurves_for_anim_data modern_host (VObj 0) tt)
  = Ok [VObj 6].
Proof.
  assert (He : entered modern_host tt 0 1) by (repeat split; reflexivity).
  split; [exact He|]. split; [reflexivity|].
  exact (proj1 (get_fcurves_for_anim_data_of_channelbag unit modern_host
                  tt tt 0 1 4 5 _ [VObj 6] He eq_refl eq_refl eq_refl)).
Defined.

Lemma get_fcurves_for_anim_data_blocks W (h : Host W) anim_data :
  Compat.get_fcurves_for_anim_data h anim_data
  = (g <- no_action h anim_data ;;
     if g then ret []
     else
       action <- getattr h anim_data "action" ;;
       returned <- fcurves_slot_path h anim_data action ;;
       match returned with
       | Some l => ret l
       | None =>
           legacy <- hasattr h action "fcurves" ;;
           if legacy then
             fcurves <- getattr h action "fcurves" ;;
             to_list h fcurves
           else ret []
       end).
Proof. reflexivity. Qed.

(** Splits a hypothesis about the host into its cases. *)
Ltac host_cases :=
  repeat match goal with
    | H : _ /\ _ |- _ => destruct H
    | H : exists _, _ |- _ => destruct H
    | H : _ \/ _ |- _ => destruct H
    end.

(** Rewrites with the host's answers, splitting on the exceptions on
    which the run depends. *)
Ltac host_settle :=
  repeat (progress
    (host_rewrite;
     repeat match goal with
       | e : exn |- _ => destruct e; try discriminate
       end)).

Section SlotPath.
Context {W : Type} (h : Host W) (w w1 : W) (ad a : obj).
Hypothesis Hentered : entered h w ad a.

(** Each way of [slot_path_fails] makes the slot path answer nothing. *)
Lemma slot_path_fails_nothing :
  slot_path_fails h w ad a w1 ->
  exists t, fcurves_slot_path h (VObj ad) (VObj a) w = (Ok None, w1, t).
Proof.
  intros Hfail.
  unfold slot_path_fails, no_slot_found, chosen_slot, no_active_slot,
    first_slot in Hfail.
  unfold fcurves_slot_path, Compat.slot_or_first, to_list. run_unfold.
  destruct Hfail as [(Hu & ->) | (Hu & Hfail)];
    [rewrite Hu; eexists; reflexivity|].
  rewrite Hu. cbv beta iota.
  destruct Hfail as [(-> & e & Hs & He) | [(-> & Hns) | (s & Hc & Hh)]].
  - host_settle. all: eexists; reflexivity.
  - unfold items_at, collection in Hns. host_cases; subst; host_settle.
    all: eexists; reflexivity.
  - destruct Hh as [(-> & Hg) | (f & Hg & [(e & Hcall) | (cb & Hcall & Hb)])].
    + host_cases; host_settle. all: eexists; reflexivity.
    + host_cases; host_settle. all: eexists; reflexivity.
    + destruct cb as [|b]; simpl in Hb;
        host_cases; host_settle. all: eexists; reflexivity.
Qed.

(** After a slot path that answered nothing, the legacy collection is
    the result. *)
Lemma legacy_after_slot_path t c cs :
  fcurves_slot_path h (VObj ad) (VObj a) w = (Ok None, w1, t) ->
  h_attr h w1 a "fcurves" = Ok (VObj c) ->
  h_iter h w1 c = (cs, None) ->
  outcome (Compat.get_fcurves_for_anim_data h (VObj ad) w) = (Ok cs, w1).
Proof.
  intros Hpath Hfc Hi. destruct Hentered as (Htad & Hact & Hta).
  rewrite get_fcurves_for_anim_data_blocks.
  unfold outcome, result, world.
  unfold bind at 1. unfold no_action, bind at 1, truthy at 1. rewrite Htad.
  cbn [negb]. unfold bind at 1, getattr at 1. rewrite Hact.
  unfold bind at 1, truthy at 1. rewrite Hta. unfold ret at 1.
  cbn [negb]. unfold bind at 1, getattr at 1. rewrite Hact.
  unfold bind at 1. rewrite Hpath.
  unfold to_list. run_unfold. host_rewrite. reflexivity.
Qed.

End SlotPath.

(** When the slot path of [get_fcurves_for_anim_data] ends without a
    list, the failure is swallowed and the result is the Action's legacy
    collection, listed whole: nothing of a half-listed bag is kept.  So
    it is whenever the [try] block answers nothing, for whatever reason,
    and in particular when the helper module is missing, the active slot
    cannot be read, no slot is found (no slots, or a first slot that
    cannot be taken), or the helper, for the active or the first slot,
    is missing, raises, finds no bag or finds one whose curves cannot be
    listed. *)
Theorem get_fcurves_for_anim_data_falls_back :
  forall (W : Type) (h : Host W) (w w1 : W) (ad a c : obj)
         (cs : list value),
    entered h w ad a ->
    h_attr h w1 a "fcurves" = Ok (VObj c) ->
    h_iter h w1 c = (cs, None) ->
    (forall t,
       fcurves_slot_path h (VObj ad) (VObj a) w = (Ok None, w1, t) ->
       outcome (Compat.get_fcurves_for_anim_data h (VObj ad) w)
       = (Ok cs, w1)) /\
    (slot_path_fails h w ad a w1 ->
     outcome (Compat.get_fcurves_for_anim_data h (VObj ad) w) = (Ok cs, w1)).
Proof.
  intros W h w w1 ad a c cs He Hfc Hi. split.
  - intros t Hpath.
    exact (legacy_after_slot_path h w w1 ad a He t c cs Hpath Hfc Hi).
  - intros Hfail.
    destruct (slot_path_fails_nothing h w w1 ad a Hfail) as (t & Hpath).
    exact (legacy_after_slot_path h w w1 ad a He t c cs Hpath Hfc Hi).
Qed.

Lemma get_fcurves_for_anim_data_falls_back_witness :
  (entered broken_bag_host tt 0 1 /\
   slot_path_fails broken_bag_host tt 0 1 tt /\
   outcome (Compat.get_fcurves_for_anim_data broken_bag_host (VObj 0) tt)
   = (Ok [VObj 9], tt)) /\
  (entered no_first_slot_host tt 0 1 /\
   slot_path_fails no_first_slot_host tt 0 1 tt /\
   outcome (Compat.get_fcurves_for_anim_data no_first_slot_host (VObj 0) tt)
   = (Ok [VObj 9], tt)).
Proof.
  assert (He : entered broken_bag_host tt 0 1) by (repeat split; reflexivity).
  assert (Hf : slot_path_fails broken_bag_host tt 0 1 tt).
  { right. split; [reflexivity|]. right. right.
    exists 3. split; [left; reflexivity|].
    right. exists resolve_slot3_helper. split; [reflexivity|].
    right. exists (VObj 4). split; [reflexivity|].
    right. right. exists 5, [VObj 6], RuntimeError.
    split; reflexivity. }
  assert (He' : entered no_first_slot_host tt 0 1)
    by (repeat split; reflexivity).
  assert (Hf' : slot_path_fails no_first_slot_host tt 0 1 tt).
  { right. split; [reflexivity|]. right. left. split; [reflexivity|].
    split; [right; reflexivity|].
    right. exists 2. split; [reflexivity|]. split; [reflexivity|].
    right. exists IndexError. reflexivity. }
  split.
  - split; [exact He|]. split; [exact Hf|].
    exact (proj2 (get_fcurves_for_anim_data_falls_back unit broken_bag_host
                    tt tt 0 1 8 [VObj 9] He eq_refl eq_refl) Hf).
  - split; [exact He'|]. split; [exact Hf'|].
    exact (proj2 (get_fcurves_for_anim_data_falls_back unit
                    no_first_slot_host tt tt 0 1 8 [VObj 9] He'
                    eq_refl eq_refl) Hf').
Defined.

(** No failure of the slot helpers escapes
    [get_fcurves_for_anim_data]: with a readable [anim_data.action] it
    ends without raising whenever the Action's legacy collection, the
    one read outside the [try], can be listed. *)
Theorem get_fcurves_for_anim_data_guarded :
  forall (W : Type) (h : Host W) (w : W) (ad a : obj),
    h_attr h w ad "action" = Ok (VObj a) ->
    legacy_listable h a ->
    ends_ok (Compat.get_fcurves_for_anim_data h (VObj ad) w).
Proof.
  intros W h w ad a Hact Hl. unfold Compat.get_fcurves_for_anim_data.
  assert (Hg : exists g t, no_action h (VObj ad) w = (Ok g, w, t)).
  { run_unfold. destruct (h_truth h w ad); [|do 2 eexists; reflexivity].
    rewrite Hact. do 2 eexists; reflexivity. }
  destruct Hg as (g & t & Hg).
  eapply bind_ends_ok; [exact Hg|].
  destruct g; [apply ret_ends_ok|].
  eapply bind_ends_ok; [unfold getattr; rewrite Hact; reflexivity|].
  match goal with
  | |- ends_ok (bind (try_except ?m ?hd) _ _) =>
      destruct (try_except m hd w) as [[r w1] t1] eqn:Hm;
      destruct (try_except_ret_total m None w) as (x & Hr)
  end.
  rewrite Hm in Hr. unfold result in Hr; simpl in Hr; subst r.
  eapply bind_ends_ok; [exact Hm|].
  destruct x as [l|]; [apply ret_ends_ok|].
  unfold ends_ok, result. run_unfold. unfold to_list.
  destruct (Hl w1) as [Hfc | (c & Hfc & Hi)]; rewrite !Hfc.
  - eexists; reflexivity.
  - destruct (h_iter h w1 c) as [items fin]. simpl in Hi. subst fin.
    eexists; reflexivity.
Qed.

Lemma get_fcurves_for_anim_data_guarded_witness :
  legacy_listable failing_helpers_host 1 /\
  ends_ok (Compat.get_fcurves_for_anim_data failing_helpers_host (VObj 0) tt).
Proof.
  assert (Hl : legacy_listable failing_helpers_host 1)
    by (intros w; left; reflexivity).
  split; [exact Hl|].
  exact (get_fcurves_for_anim_data_guarded unit failing_helpers_host tt 0 1
           eq_refl Hl).
Defined.

(** With no slot to resolve and no legacy collection,
    [get_fcurves_for_anim_data] answers the empty list: it calls no
    helper and leaves the world as it was. *)
Theorem get_fcurves_for_anim_data_nothing_to_find :
  forall (W : Type) (h : Host W) (w : W) (ad a : obj),
    entered h w ad a ->
    no_active_slot h w ad ->
    items_at h w (VObj a) "slots" [] ->
    lacks h w (VObj a) "fcurves" ->
    result (Compat.get_fcurves_for_anim_data h (VObj ad) w) = Ok [] /\
    world (Compat.get_fcurves_for_anim_data h (VObj ad) w) = w /\
    helper_calls (trace (Compat.get_fcurves_for_anim_data h (VObj ad) w)) = 0.
Proof.
  intros W h w ad a (Htad & Hact & Hta) Hs Hsl Hl. simpl in Hsl, Hl.
  unfold Compat.get_fcurves_for_anim_data, Compat.slot_or_first, to_list.
  run_unfold. host_rewrite.
  destruct (h_anim_utils h); [|host_rewrite; repeat split; reflexivity].
  destruct Hs as [Hs | Hs];
    destruct Hsl as [(_ & [Hsl | Hsl]) | (c & Hsl & (_ & Htc))];
    host_rewrite; repeat split; reflexivity.
Qed.

Lemma get_fcurves_for_anim_data_nothing_to_find_witness :
  (entered readonly_host tt 0 1 /\
   no_active_slot readonly_host tt 0 /\
   items_at readonly_host tt (VObj 1) "slots" [] /\
   lacks readonly_host tt (VObj 1) "fcurves") /\
  result (Compat.get_fcurves_for_anim_data readonly_host (VObj 0) tt)
  = Ok [].
Proof.
  assert (He : entered readonly_host tt 0 1) by (repeat split; reflexivity).
  assert (Hs : no_active_slot readonly_host tt 0) by (left; reflexivity).
  assert (Hsl : items_at readonly_host tt (VObj 1) "slots" [])
    by items_solve.
  assert (Hl : lacks readonly_host tt (VObj 1) "fcurves") by reflexivity.
  split; [auto|].
  exact (proj1 (get_fcurves_for_anim_data_nothing_to_find unit readonly_host
                  tt 0 1 He Hs Hsl Hl)).
Defined.

(** ** The two modules side by side *)

(** Splits on the next answer of the host that the goal waits for. *)
Ltac host_split :=
  match goal with
  | |- context [h_truth ?h ?w ?o] => destruct (h_truth h w o) eqn:?
  | |- context [h_attr ?h ?w ?o ?n] =>
      destruct (h_attr h w o n) as [[|?]|[]] eqn:?
  | |- context [h_method ?h ?w ?o ?m ?c ?a] =>
      destruct (h_method h w o m c a) as [[[|?]|?] ?] eqn:?
  end; cbv beta iota; host_rewrite.

(** On a host without [bpy_extras.anim_utils] the two modules cannot be
    told apart through [get_action_channelbag] and
    [ensure_action_group]: for every input they end with the same result
    in the same world.  (The read of [container.groups] that the backup
    module makes on a container without [groups] is out of reach
    there.) *)
Theorem modules_agree_without_anim_utils :
  forall (W : Type) (h : Host W) (anim_data : value) (ensure : bool)
         (group_name : string) (w : W),
    h_anim_utils h = false ->
    outcome (CompatBak.get_action_channelbag h anim_data ensure w)
    = outcome (Compat.get_action_channelbag h anim_data ensure w) /\
    outcome (CompatBak.ensure_action_group h anim_data group_name w)
    = outcome (Compat.ensure_action_group h anim_data group_name w).
Proof.
  intros W h anim_data ensure group_name w Hu.
  unfold outcome, Compat.ensure_action_group, CompatBak.ensure_action_group,
    Compat.get_action_channelbag, CompatBak.get_action_channelbag.
  run_unfold. rewrite !Hu. cbv beta iota.
  destruct anim_data as [|o]; [split; reflexivity|].
  split; repeat (try reflexivity; host_split).
Qed.

Lemma modules_agree_without_anim_utils_witness :
  h_anim_utils old_legacy_host = false /\
  outcome (Compat.get_action_channelbag old_legacy_host (VObj 0) true [])
  = (Ok (VObj 1), []) /\
  outcome (CompatBak.get_action_channelbag old_legacy_host (VObj 0) true [])
  = (Ok (VObj 1), []) /\
  outcome (Compat.ensure_action_group old_legacy_host (VObj 0) "g" [])
  = (Ok (VObj 100), [("g", 100)]) /\
  outcome (CompatBak.ensure_action_group old_legacy_host (VObj 0) "g" [])
  = (Ok (VObj 100), [("g", 100)]).
Proof.
  pose proof (modules_agree_without_anim_utils _ old_legacy_host (VObj 0)
                true "g" [] eq_refl) as (Hg & He).
  split; [reflexivity|]. split; [reflexivity|].
  split; [rewrite Hg; reflexivity|].
  split; [reflexivity|]. rewrite He. reflexivity.
Defined.

(** Where [action.fcurves] exists but reads as [None], the modules part
    ways: [xplane_anim_compat.py] tries to iterate it, swallows the
    [TypeError] and goes on to yield the layers' curves;
    [xplane_anim_compat_bak.py] tests it first, finds it falsy and
    returns having yielded nothing. *)
Theorem iter_action_fcurves_none_collection :
  forall (W : Type) (h : Host W) (w : W) (o : obj)
         (ls : list (list (list (list value)))),
    h_attr h w o "fcurves" = Ok VNone ->
    not_slotted h w (VObj o) ->
    layers_has h w (VObj o) ls ->
    yields_exactly w (Compat.iter_action_fcurves h (VObj o))
      (curves (Layered ls)) /\
    yields_exactly w (CompatBak.iter_action_fcurves h (VObj o)) [].
Proof.
  intros W h w o ls Hfc Hns Hls. split.
  - assert (Hb : block_yields w (Compat.legacy_block h (VObj o)) false []).
    { eexists. unfold Compat.legacy_block. run_unfold. rewrite !Hfc.
      split; reflexivity. }
    unfold Compat.iter_action_fcurves; cbn [is_none].
    change (curves (Layered ls)) with ([] ++ curves (Layered ls)).
    eapply bind_block; [exact Hb|].
    apply walk_layers_yields; exact Hls.
  - assert (Hb : block_yields w (CompatBak.legacy_block h (VObj o)) true []).
    { eexists. unfold CompatBak.legacy_block. run_unfold. rewrite !Hfc.
      split; reflexivity. }
    unfold CompatBak.iter_action_fcurves; cbn [is_none].
    change (@nil value) with (@nil value ++ ([] ++ [])).
    eapply bind_block; [apply backup_slotted_skipped; exact Hns|].
    eapply bind_block; [exact Hb|apply ret_yields_nothing].
Qed.

Lemma iter_action_fcurves_none_collection_witness :
  (not_slotted none_flat_host tt (VObj 1) /\
   layers_has none_flat_host tt (VObj 1) [[[[VObj 20]]]]) /\
  yields_exactly tt (Compat.iter_action_fcurves none_flat_host (VObj 1))
    [VObj 20] /\
  yields_exactly tt (CompatBak.iter_action_fcurves none_flat_host (VObj 1))
    [].
Proof.
  assert (H1 : not_slotted none_flat_host tt (VObj 1)) by (left; reflexivity).
  assert (H2 : layers_has none_flat_host tt (VObj 1) [[[[VObj 20]]]])
    by has_solve.
  split; [split; assumption|].
  exact (iter_action_fcurves_none_collection unit none_flat_host tt 1 _
           eq_refl H1 H2).
Defined.

(** On a legacy host (no [bpy_extras.anim_utils]) the ways to the curves
    agree: the list [get_fcurves_for_anim_data] returns for an AnimData
    is the sequence [iter_action_fcurves] of either module yields for its
    Action, namely the flat collection in its order. *)
Theorem legacy_host_list_and_generator_agree :
  forall (W : Type) (h : Host W) (w : W) (ad a : obj) (cs : list value),
    h_anim_utils h = false ->
    entered h w ad a ->
    flat_at h w (VObj a) cs ->
    outcome (Compat.get_fcurves_for_anim_data h (VObj ad) w) = (Ok cs, w) /\
    yields_exactly w (Compat.iter_action_fcurves h (VObj a)) cs /\
    yields_exactly w (CompatBak.iter_action_fcurves h (VObj a)) cs.
Proof.
  intros W h w ad a cs Hu (Htad & Hact & Hta) Hf. split; [|split].
  - destruct Hf as (o & c & Heq & Hfc & (Hi & _)). injection Heq as <-.
    unfold outcome, Compat.get_fcurves_for_anim_data, to_list. run_unfold.
    host_rewrite. reflexivity.
  - exact (iter_yields_shape h w Current (VObj a) (Flat cs) Hf).
  - apply (iter_yields_shape h w Backup (VObj a) (Flat cs)).
    split; [left; exact Hu|exact Hf].
Qed.

Lemma legacy_host_list_and_generator_agree_witness :
  (entered flat_anim_host tt 0 1 /\
   flat_at flat_anim_host tt (VObj 1) [VObj 8; VObj 9]) /\
  result (Compat.get_fcurves_for_anim_data flat_anim_host (VObj 0) tt)
  = Ok [VObj 8; VObj 9] /\
  yields_exactly tt (Compat.iter_action_fcurves flat_anim_host (VObj 1))
    [VObj 8; VObj 9].
Proof.
  assert (He : entered flat_anim_host tt 0 1) by (repeat split; reflexivity).
  assert (Hf : flat_at flat_anim_host tt (VObj 1) [VObj 8; VObj 9]).
  { exists 1, 2. repeat split; reflexivity. }
  pose proof (legacy_host_list_and_generator_agree unit flat_anim_host tt
                0 1 _ eq_refl He Hf) as (H1 & H2 & _).
  split; [split; assumption|]. split; [|exact H2].
  exact (f_equal fst H1).
Defined.

(** ** [ensure_action_group] without a container *)

Section NoContainer.
Context {W : Type} (h : Host W).

Lemma no_method_in_flagged ensure t :
  forallb (passes_flag ensure) t = true ->
  forall meth, method_calls meth t = 0.
Proof.
  intros Ht meth. induction t as [|e t IH]; simpl in *; [reflexivity|].
  apply andb_prop in Ht as [He Ht].
  destruct e; simpl in *; try discriminate; auto.
Qed.

Lemma ensure_action_group_no_container v anim_data group_name w w1 t :
  get_action_channelbag_of v h anim_data true w = (Ok VNone, w1, t) ->
  exists t',
    ensure_action_group_of v h anim_data group_name w = (Ok VNone, w1, t') /\
    forall meth, method_calls meth t' = 0.
Proof.
  intros Hrun.
  assert (Ht : forall meth, method_calls meth t = 0).
  { apply (no_method_in_flagged true).
    pose proof (proj1 (confined_get_action_channelbag h (passes_flag true)
                         (passive_passes_flag true) eq_refl
                         (fun _ _ _ => eq_refl) true eq_refl
                         (fun _ _ _ => eq_refl) v anim_data w)) as Hp.
    rewrite Hrun in Hp. exact Hp. }
  pose proof (no_action_world h anim_data w) as Hw.
  assert (Hg0 : forall meth,
            method_calls meth (trace (no_action h anim_data w)) = 0).
  { apply (no_method_in_flagged true).
    exact (proj1 (confined_no_action h (passes_flag true)
                    (passive_passes_flag true) anim_data w)). }
  destruct (no_action h anim_data w) as [[[g|e] w0] t0] eqn:Hg;
    unfold world, trace in Hw, Hg0; simpl in Hw, Hg0; subst w0.
  - destruct g.
    + assert (w1 = w).
      { destruct v; simpl in Hrun;
          unfold Compat.get_action_channelbag,
            CompatBak.get_action_channelbag in Hrun;
          unfold bind at 1 in Hrun; rewrite Hg in Hrun;
          unfold ret in Hrun; congruence. }
      subst w1. exists (t0 ++ []).
      split; [|intros meth; rewrite method_calls_app, Hg0; reflexivity].
      destruct v; simpl;
        unfold Compat.ensure_action_group, CompatBak.ensure_action_group;
        unfold bind at 1; rewrite Hg; reflexivity.
    + exists (t0 ++ t ++ [] ++ []).
      split; [|intros meth; rewrite !method_calls_app, Hg0, Ht; reflexivity].
      destruct v; simpl in *;
        unfold Compat.ensure_action_group, CompatBak.ensure_action_group;
        unfold bind at 1; rewrite Hg;
        unfold bind at 1; rewrite Hrun; reflexivity.
  - destruct v; simpl in Hrun;
      unfold Compat.get_action_channelbag,
        CompatBak.get_action_channelbag in Hrun;
      unfold bind at 1 in Hrun; rewrite Hg in Hrun; discriminate.
Qed.

End NoContainer.

(** Where [get_action_channelbag] (asked to ensure) resolves no
    container, [ensure_action_group] of either module answers [None] in
    the world that resolution left and calls no method at all: no group
    is looked up or created. *)
Theorem ensure_action_group_without_container :
  forall (W : Type) (h : Host W) (v : version) (anim_data : value)
         (group_name : string) (w w1 : W) (t : list event),
    get_action_channelbag_of v h anim_data true w = (Ok VNone, w1, t) ->
    exists t',
      ensure_action_group_of v h anim_data group_name w
      = (Ok VNone, w1, t') /\
      forall meth, method_calls meth t' = 0.
Proof. intros W h. apply ensure_action_group_no_container. Qed.

Lemma ensure_action_group_without_container_witness :
  result (Compat.get_action_channelbag failing_helpers_host (VObj 0) true tt)
  = Ok VNone /\
  result (Compat.ensure_action_group failing_helpers_host (VObj 0) "g" tt)
  = Ok VNone.
Proof.
  split; [reflexivity|].
  destruct (ensure_action_group_without_container unit failing_helpers_host
              Current (VObj 0) "g" tt tt _ eq_refl) as (t' & Hrun & _).
  simpl in Hrun. rewrite Hrun. reflexivity.
Defined.

(** ** A slot that fails to resolve *)

Section SlotFailure.
Context {W : Type} (h : Host W) (w : W).

Lemma run_items_breaks (body : value -> M W unit) pre x rest yss e tx :
  Forall2 (fun y ys => yields_exactly w (body y) ys) pre yss ->
  body x w = (Raise e, w, tx) ->
  yields tx = [] ->
  exists t, run_items (pre ++ x :: rest) body w = (Raise e, w, t) /\
            yields t = List.concat yss.
Proof.
  intros HF Hx Htx. induction HF as [|y ys pre yss (t & Hy & Ht) _ IH]; simpl.
  - exists tx. unfold bind. rewrite Hx. auto.
  - destruct IH as (t' & Hr & Ht'). exists (t ++ t').
    unfold bind at 1. rewrite Hy.
    rewrite Hr. split; [reflexivity|].
    rewrite yields_app, Ht, Ht'. reflexivity.
Qed.

Lemma backup_slotted_block_breaks f o c pre s rest fin bs e :
  h_anim_utils h = true ->
  h_get_channelbag h = Some f ->
  h_attr h w o "slots" = Ok (VObj c) ->
  h_truth h w c = true ->
  h_iter h w c = (pre ++ s :: rest, fin) ->
  Forall2 (fun slot cs =>
             exists cb, f w (VObj o) slot = (Ok cb, w) /\
                        resolved_bag_has h w cb cs) pre bs ->
  f w (VObj o) s = (Raise e, w) ->
  block_yields w (CompatBak.slotted_block h (VObj o)) false (List.concat bs).
Proof.
  intros Hu Hf Ha Ht Hi HF Hs.
  assert (HF' : Forall2 (fun slot cs =>
              yields_exactly w (CompatBak.walk_slot h (VObj o) slot) cs)
            pre bs).
  { eapply Forall2_impl; [|exact HF]. intros slot cs Hr.
    exact (walk_slot_yields h w f (VObj o) slot cs Hf Hr). }
  assert (Hx : CompatBak.walk_slot h (VObj o) s w
               = (Raise e, w,
                  [EvHelper "action_get_channelbag_for_slot" (VObj o) s
                     None])).
  { unfold CompatBak.walk_slot, call_get_channelbag. rewrite Hf.
    unfold bind. rewrite Hs. reflexivity. }
  destruct (run_items_breaks _ pre s rest bs e _ HF' Hx eq_refl)
    as (t & Hr & Hy).
  eexists. split.
  - unfold CompatBak.slotted_block, try_except at 1.
    unfold bind at 1. unfold import_anim_utils at 1.
    unfold bind at 1, emit at 1. rewrite Hu. unfold ret at 1.
    unfold bind at 1.
    unfold getattr_default, try_except at 1, getattr at 1. rewrite Ha.
    unfold bind at 1. unfold truthy at 1. rewrite Ht.
    unfold bind at 1. unfold for_in. rewrite Hi. cbn [fst snd].
    unfold bind at 1, emit at 1. unfold bind at 1. rewrite Hr.
    unfold ret. reflexivity.
  - cbn [yields app]. rewrite ?app_nil_r, ?yields_app. cbn [yields app].
    rewrite ?app_nil_r. exact Hy.
Qed.

End SlotFailure.

(** In [xplane_anim_compat_bak.py] a slot that fails to resolve ends the
    slotted enumeration but not the call: the curves of the slots before
    it have been yielded, the failure is swallowed, and the legacy flat
    collection follows in the same sequence. *)
Theorem backup_iter_action_fcurves_slot_failure :
  forall (W : Type) (h : Host W) (w : W) (o c : obj)
         (f : W -> value -> value -> res value * W)
         (pre rest : list value) (s : value) (fin : option exn)
         (bs : list (list value)) (e : exn) (cs : list value),
    h_anim_utils h = true ->
    h_get_channelbag h = Some f ->
    h_attr h w o "slots" = Ok (VObj c) ->
    h_truth h w c = true ->
    h_iter h w c = (pre ++ s :: rest, fin) ->
    Forall2 (fun slot cs' =>
               exists cb, f w (VObj o) slot = (Ok cb, w) /\
                          resolved_bag_has h w cb cs') pre bs ->
    f w (VObj o) s = (Raise e, w) ->
    flat_at h w (VObj o) cs ->
    yields_exactly w (CompatBak.iter_action_fcurves h (VObj o))
      (List.concat bs ++ cs).
Proof.
  intros W h w o c f pre rest s fin bs e cs Hu Hf Ha Ht Hi HF Hs Hflat.
  unfold CompatBak.iter_action_fcurves; cbn [is_none].
  eapply bind_block;
    [exact (backup_slotted_block_breaks h w f o c pre s rest fin bs e
              Hu Hf Ha Ht Hi HF Hs)|].
  rewrite <- (app_nil_r cs).
  eapply bind_block; [apply backup_legacy_flat; exact Hflat|].
  apply ret_yields_nothing.
Qed.

Lemma backup_iter_action_fcurves_slot_failure_witness :
  flat_at two_slots_host tt (VObj 1) [VObj 9] /\
  yields_exactly tt (CompatBak.iter_action_fcurves two_slots_host (VObj 1))
    [VObj 6; VObj 9].
Proof.
  assert (Hf : flat_at two_slots_host tt (VObj 1) [VObj 9]).
  { exists 1, 8. repeat split; reflexivity. }
  split; [exact Hf|].
  apply (backup_iter_action_fcurves_slot_failure unit two_slots_host tt 1 2
           resolve_or_fail [VObj 3] [] (VObj 13) None [[VObj 6]]
           RuntimeError [VObj 9]); try reflexivity; try exact Hf.
  constructor; [|constructor].
  exists (VObj 4). split; [reflexivity|].
  right. split; [reflexivity|]. items_solve.
Defined.
